(** * Gemma3: the conversation-orchestration core

    A shallow embedding of the Python sources
    ([ai_assistant.py], [topic_expert.py], [gemma_api.py],
    [gemma_web_app.py], [web_interface.py]) and the properties of
    chunked summarisation, session reset, capability gating, image
    payload handling and the submit/poll dispatcher.

    Python code with side effects is written in a state-and-exception
    monad; the external collaborators (the remote or local model, the
    base64 decoder, the image parser, the text extractors) are fields
    of the class [External]; the library calls made at start-up are those of
    the class [Startup]. *)

From Stdlib Require Import List String Ascii Arith PeanoNat Lia Bool.
From Stdlib Require Import Decimal DecimalString.
Import ListNotations.
Local Open Scope string_scope.
Local Open Scope nat_scope.
Local Open Scope list_scope.

(** Python's [+] on strings *)
Infix "+++" := String.append (at level 60, right associativity).

(* ================================================================= *)
(** * The Python runtime fragment used by the sources *)

Module Py.

(** Exception classes that occur in the modelled code.  Every one of them
    is a subclass of [Exception], so [except Exception] catches them all;
    [except queue.Empty] catches [Empty] only. *)
Inductive exn_class : Type :=
| Exception | IndexError | ValueError | AttributeError | Empty.

Record exn : Type := mk_exn { exn_cls : exn_class; exn_msg : string }.

(** [str(e)] *)
Definition str (e : exn) : string := exn_msg e.

Definition is_Empty (e : exn) : bool :=
  match exn_cls e with Empty => true | _ => false end.

Inductive result (A : Type) : Type :=
| Ok (a : A)
| Raise (e : exn).
Arguments Ok {A} a.
Arguments Raise {A} e.

(** A computation over a mutable state [S] that returns or raises.  The
    state reached when an exception is raised is kept: effects performed
    before a [raise] are not rolled back. *)
Definition M (S A : Type) : Type := S -> result A * S.

Definition ret {S A} (a : A) : M S A := fun s => (Ok a, s).

Definition bind {S A B} (m : M S A) (k : A -> M S B) : M S B :=
  fun s => match m s with
           | (Ok a, s') => k a s'
           | (Raise e, s') => (Raise e, s')
           end.

Definition raise {S A} (e : exn) : M S A := fun s => (Raise e, s).

(** [try: body  except Exception as e: handler e] *)
Definition try_except {S A} (body : M S A) (handler : exn -> M S A) : M S A :=
  fun s => match body s with
           | (Ok a, s') => (Ok a, s')
           | (Raise e, s') => handler e s'
           end.

(** [try: body  except <class>: handler], for the classes selected by [sel] *)
Definition try_except_only {S A} (sel : exn -> bool)
    (body : M S A) (handler : exn -> M S A) : M S A :=
  fun s => match body s with
           | (Ok a, s') => (Ok a, s')
           | (Raise e, s') => if sel e then handler e s' else (Raise e, s')
           end.

Definition of_result {S A} (r : result A) : M S A := fun s => (r, s).

Definition get {S} : M S S := fun s => (Ok s, s).
Definition modify {S} (f : S -> S) : M S unit := fun s => (Ok tt, f s).

(** A [for x in l: body x] loop that collects the values of the body. *)
Fixpoint for_each {S A B} (l : list A) (body : A -> M S B) : M S (list B) :=
  match l with
  | [] => ret []
  | x :: l' => bind (body x) (fun y =>
               bind (for_each l' body) (fun ys => ret (y :: ys)))
  end.

(** [range(start, stop, step)] for a non-negative start and step: the
    length is computed as CPython does, and a zero step is a ValueError. *)
Definition range (start stop step : nat) : result (list nat) :=
  if step =? 0 then
    Raise (mk_exn ValueError "range() arg 3 must not be zero")
  else
    let n := if start <? stop then (stop - start - 1) / step + 1 else 0 in
    Ok (map (fun k => start + k * step) (seq 0 n)).

(** [enumerate(l)] *)
Definition enumerate {A} (l : list A) : list (nat * A) :=
  combine (seq 0 (List.length l)) l.

(** [s[i:j]] for [0 <= i <= j]; the slice is clipped at the end of [s]. *)
Definition slice (s : string) (i j : nat) : string := substring i (j - i) s.

(** [l[i]] *)
Definition index {S A} (l : list A) (i : nat) : M S A :=
  match nth_error l i with
  | Some x => ret x
  | None => raise (mk_exn IndexError "list index out of range")
  end.

(** [s.startswith(p)] *)
Definition startswith (s p : string) : bool := prefix p s.

(** [s.split(sep)] for a one-character separator *)
Fixpoint split (sep : ascii) (s : string) : list string :=
  match s with
  | EmptyString => [EmptyString]
  | String c s' =>
      if Ascii.eqb c sep then EmptyString :: split sep s'
      else match split sep s' with
           | h :: t => String c h :: t
           | [] => [String c EmptyString]
           end
  end.

(** The characters that [str.strip()] removes, a character being a code
    point below 256: the ASCII white space (9 to 13, 28 to 32), U+0085 and
    U+00A0. *)
Definition isspace (c : ascii) : bool :=
  let n := nat_of_ascii c in
  ((9 <=? n) && (n <=? 13)) || ((28 <=? n) && (n <=? 32)) ||
  (n =? 133) || (n =? 160).

Fixpoint lstrip (s : string) : string :=
  match s with
  | EmptyString => EmptyString
  | String c s' => if isspace c then lstrip s' else s
  end.

Fixpoint rstrip (s : string) : string :=
  match s with
  | EmptyString => EmptyString
  | String c s' =>
      match rstrip s' with
      | EmptyString => if isspace c then EmptyString else String c EmptyString
      | r => String c r
      end
  end.

(** [s.strip()] *)
Definition strip (s : string) : string := rstrip (lstrip s).

(** Truth value of a string: [if s] holds for the non-empty strings. *)
Definition truthy (s : string) : bool :=
  match s with EmptyString => false | _ => true end.

(** Truth value of an optional string ([None] or a string). *)
Definition truthy_opt (o : option string) : bool :=
  match o with Some s => truthy s | None => false end.

(** [str(n)] for a natural number *)
Definition str_nat (n : nat) : string := NilEmpty.string_of_uint (Nat.to_uint n).

Definition nl : string := String (ascii_of_nat 10) EmptyString.

End Py.

Import Py.

Declare Scope py_scope.
Delimit Scope py_scope with py.
Notation "x <- m ;; k" := (bind m (fun x => k))
  (at level 100, m at next level, right associativity) : py_scope.
Notation "m ;;; k" := (bind m (fun _ => k))
  (at level 100, right associativity) : py_scope.
Local Open Scope py_scope.

(** Run a computation on a part [T] of the state [S]. *)
Definition zoom {S T A} (proj : S -> T) (upd : T -> S -> S) (m : M T A) : M S A :=
  fun s => let (r, t') := m (proj s) in (r, upd t' s).

(* ================================================================= *)
(** * External collaborators *)

(** A parsed image (a PIL image object), identified by its content. *)
Inductive Image : Type := PIL_Image (data : string).

Inductive Role : Type := user | assistant.

(** One turn of a conversation: the text segment and the attached images. *)
Record Message : Type := mk_message {
  role : Role;
  text : string;
  images : list Image
}.

Definition user_message (prompt : string) (imgs : list Image) : Message :=
  mk_message user prompt imgs.
Definition assistant_message (reply : string) : Message :=
  mk_message assistant reply [].

(** What the program does not implement itself: the model behind
    [gemma.text.ChatSampler] and [genai.GenerativeModel], the standard
    library's base64 decoder, PIL, and the file readers.  Each may fail,
    which Python reports by raising. *)
Class External : Type := {
  (** the model's reply to the whole content sent in one call *)
  generate : list Message -> result string;
  (** [base64.b64decode] *)
  b64decode : string -> result string;
  (** [Image.open(io.BytesIO(b))] *)
  Image_open_bytes : string -> result Image;
  (** [Image.open(path)] *)
  Image_open : string -> result Image;
  (** [pytesseract.image_to_string] *)
  image_to_string : Image -> result string;
  (** [os.path.splitext(path)[1].lower()] *)
  splitext_lower : string -> string;
  (** the text of each page that [PyPDF2.PdfReader] finds in a file *)
  pdf_page_texts : string -> result (list string);
  (** the text of each paragraph of a DOCX file *)
  docx_paragraphs : string -> result (list string);
  (** the content of a UTF-8 text file *)
  read_text : string -> result string
}.

(** The observable outside world: every call received by the model, oldest
    first (what a recording stub of the model would hold), and the lines
    printed. *)
Record World : Type := mk_world {
  invocations : list (list Message);
  stdout : list string
}.

Definition record_invocation (contents : list Message) (w : World) : World :=
  mk_world (invocations w ++ [contents]) (stdout w).

Definition print_line (line : string) (w : World) : World :=
  mk_world (invocations w) (stdout w ++ [line]).

(** The calls into the gemma library made while a program starts. *)
Inductive gm_step : Type :=
| gm_Tokenizer                    (* gm.Tokenizer() *)
| gm_Gemma3_4B                    (* gm.nn.Gemma3_4B() *)
| gm_load_params_4B_IT            (* gm.ckpts.load_params(...GEMMA3_4B_IT) *)
| gm_Gemma3Vision_4B              (* gm.nn.Gemma3Vision_4B() *)
| gm_load_params_VISION_4B_IT     (* gm.ckpts.load_params(...GEMMA3VISION_4B_IT) *)
| gm_ChatSampler (vision : bool). (* gm.text.ChatSampler(model=..., multi_turn=True) *)

(** What the start-up code asks of the libraries.  Each call may fail. *)
Class Startup : Type := {
  (** [genai.GenerativeModel(model_name=name)] and the first
      [start_chat(history=[])] on the model *)
  GenerativeModel : string -> result unit;
  (** a constructor or loader of the gemma library *)
  gm_call : gm_step -> result unit
}.

Section Sessions.
Context {E : External}.

(** Modelled from the spec: the conversation session of the model client
    ([genai.ChatSession], [gemma.text.ChatSampler] with [multi_turn=True]) is
    not part of the repository.  Following section 4.1, a session is its ordered
    message history; a send invokes the model with the accumulated history
    and the new user message, and on success appends the user message and
    the assistant reply.  A failed call leaves the history as it was. *)
Definition session_send (m : Message) : M (list Message * World) string :=
  fun '(history, w) =>
    let contents := history ++ [m] in
    let w' := record_invocation contents w in
    match generate contents with
    | Ok reply => (Ok reply, (contents ++ [assistant_message reply], w'))
    | Raise e => (Raise e, (history, w'))
    end.

(** Modelled from the spec: [model.start_chat(history=h)] and
    [chat_sampler.reset()] of the external client give a session whose
    history is [h], respectively empty (section 6, [newSession]). *)
Definition start_chat (history : list Message) : list Message := history.

(** [model.generate_content(contents)]: one single-shot call. *)
Definition generate_content (contents : list Message) : M World string :=
  fun w => (generate contents, record_invocation contents w).

End Sessions.

(* ================================================================= *)
(** * ai_assistant.py *)

Module AiAssistant.
Section Defs.
Context {E : External}.

Record GemmaAssistant : Type := mk_assistant {
  use_multimodal : bool;
  chat_sampler : list Message
}.

(** The state a method runs in: [self] and the outside world. *)
Definition St : Type := GemmaAssistant * World.

Definition print (line : string) : M St unit :=
  modify (fun '(self, w) => (self, print_line line w)).

(** [self.chat_sampler.send_message(prompt, images=imgs)] *)
Definition chat_sampler_send_message (prompt : string) (imgs : list Image)
  : M St string :=
  zoom (fun '(self, w) => (chat_sampler self, w))
       (fun '(h, w) '(self, _) => (mk_assistant (use_multimodal self) h, w))
       (session_send (user_message prompt imgs)).

(** The constructor: the tokenizer, the model and its parameters, then the
    chat sampler; a call of the library that fails ends the construction. *)
Definition __init__ {L : Startup} (use_multimodal : bool) : M World GemmaAssistant :=
  of_result (gm_call gm_Tokenizer) ;;;
  (if use_multimodal then
     modify (print_line "Initializing multimodal Gemma 3 assistant...") ;;;
     of_result (gm_call gm_Gemma3Vision_4B) ;;;
     of_result (gm_call gm_load_params_VISION_4B_IT)
   else
     modify (print_line "Initializing text-only Gemma 3 assistant...") ;;;
     of_result (gm_call gm_Gemma3_4B) ;;;
     of_result (gm_call gm_load_params_4B_IT)) ;;;
  of_result (gm_call (gm_ChatSampler use_multimodal)) ;;;
  modify (print_line "Assistant initialized and ready!") ;;;
  ret (mk_assistant use_multimodal (start_chat [])).

Definition reset_conversation : M St unit :=
  modify (fun '(self, w) => (mk_assistant (use_multimodal self) (start_chat []), w)) ;;;
  print "Conversation history has been reset.".

Definition process_text (text : string) (prompt : option string) : M St string :=
  let prompt := match prompt with
                | None => "Please analyze the following text and provide insights:"
                | Some p => p
                end in
  let full_prompt := prompt +++ nl +++ nl +++ text in
  response <- chat_sampler_send_message full_prompt [] ;;
  ret response.

Definition capability_error : string :=
  "Error: This assistant is not initialized with multimodal capabilities.".

Definition process_image (image : Image) (prompt : option string) : M St string :=
  s <- get ;;
  if negb (use_multimodal (fst s)) then ret capability_error
  else
    let prompt := match prompt with
                  | None => "Please analyze this image and describe what you see:"
                  | Some p => p
                  end in
    response <- chat_sampler_send_message prompt [image] ;;
    ret response.

Definition chat (message : string) (image : option Image) : M St string :=
  s <- get ;;
  match image with
  | Some img =>
      if negb (use_multimodal (fst s)) then ret capability_error
      else response <- chat_sampler_send_message message [img] ;; ret response
  | None => response <- chat_sampler_send_message message [] ;; ret response
  end.

Definition _extract_from_pdf (file_path : string) : result string :=
  match pdf_page_texts file_path with
  | Ok pages => Ok (fold_left (fun text page => text +++ page +++ nl) pages EmptyString)
  | Raise e => Raise e
  end.

Definition _extract_from_docx (file_path : string) : result string :=
  match docx_paragraphs file_path with
  | Ok paragraphs => Ok (String.concat nl paragraphs)
  | Raise e => Raise e
  end.

Definition _extract_from_txt (file_path : string) : result string :=
  read_text file_path.

Definition _extract_from_image (file_path : string) : result string :=
  match Image_open file_path with
  | Ok image => image_to_string image
  | Raise e => Raise e
  end.

(** Every exception of an extractor is caught and reported in the returned
    string, so the function always returns. *)
Definition extract_text_from_document (file_path : string) : string :=
  let file_extension := splitext_lower file_path in
  let body :=
    if String.eqb file_extension ".pdf" then _extract_from_pdf file_path
    else if String.eqb file_extension ".docx" then _extract_from_docx file_path
    else if String.eqb file_extension ".txt" then _extract_from_txt file_path
    else if existsb (String.eqb file_extension) [".png"; ".jpg"; ".jpeg"]
         then _extract_from_image file_path
    else Ok ("Unsupported file format: " +++ file_extension) in
  match body with
  | Ok text => text
  | Raise e => "Error extracting text: " +++ str e
  end.

(** [[text[i:i+chunk_size] for i in range(0, len(text), chunk_size)]] *)
Definition split_chunks (chunk_size : nat) (text : string) : result (list string) :=
  match range 0 (String.length text) chunk_size with
  | Ok offsets => Ok (map (fun i => slice text i (i + chunk_size)) offsets)
  | Raise e => Raise e
  end.

Definition chunk_prompt (i n : nat) : string :=
  "This is part " +++ str_nat (i + 1) +++ " of " +++ str_nat n +++
  " of a document. Please summarize this section:".

Definition combine_prompt : string :=
  "The following are summaries of different parts of a document. Please provide a coherent overall summary:".

Definition extraction_error : string :=
  "Error: Could not extract text from the document.".

(** [summarize_document], with the literal 10000 that the source writes in
    the test, in the step of the range and in the slice named [chunk_size]. *)
Definition summarize_document_with (chunk_size : nat) (file_path : string)
  : M St string :=
  let text := extract_text_from_document file_path in
  if negb (truthy text) then ret extraction_error
  else if chunk_size <? String.length text then
    chunks <- of_result (split_chunks chunk_size text) ;;
    summaries <- for_each (enumerate chunks) (fun '(i, chunk) =>
        print ("Processing chunk " +++ str_nat (i + 1) +++ "/" +++
               str_nat (List.length chunks) +++ "...") ;;;
        let prompt := chunk_prompt i (List.length chunks) in
        summary <- process_text chunk (Some prompt) ;;
        ret summary) ;;
    let combined_summaries := String.concat (nl +++ nl) summaries in
    final_summary <- process_text combined_summaries (Some combine_prompt) ;;
    ret final_summary
  else process_text text (Some "Please summarize this document:").

#[local] Set Warnings "-abstract-large-number".
Definition CHUNK_SIZE : nat := 10000.

Definition summarize_document (file_path : string) : M St string :=
  summarize_document_with CHUNK_SIZE file_path.

(** The value returned by [analyze_image_document]: an error string or one of
    the two dictionaries. *)
Inductive analysis : Type :=
| analysis_error (message : string)
| analysis_full (visual_analysis extracted_text text_analysis combined_analysis : string)
| analysis_visual (visual_analysis extracted_text : string).

Definition analyze_image_document (file_path : string) (extract_text : bool)
  : M St analysis :=
  try_except
    (s <- get ;;
     if negb (use_multimodal (fst s)) then ret (analysis_error capability_error)
     else
       image <- of_result (Image_open file_path) ;;
       visual_analysis <- process_image image (Some "Analyze this document visually:") ;;
       let no_text := analysis_visual visual_analysis
           "No text extracted or text extraction not requested." in
       if extract_text then
         extracted_text <- of_result (_extract_from_image file_path) ;;
         if truthy (strip extracted_text) then
           text_analysis <- process_text extracted_text
             (Some "The following text was extracted from the document image. Please analyze it:") ;;
           let combined_prompt :=
             "You've analyzed this document both visually and through its text content. " +++
             "Please provide a comprehensive analysis combining both perspectives:" in
           _ <- chat_sampler_send_message combined_prompt [] ;;
           combined_analysis <- chat_sampler_send_message combined_prompt [] ;;
           ret (analysis_full visual_analysis extracted_text text_analysis combined_analysis)
         else ret no_text
       else ret no_text)
    (fun e => ret (analysis_error ("Error analyzing image document: " +++ str e))).

End Defs.
End AiAssistant.

(** Run the body of a constructor on the object under construction. *)
Definition construct {O A} (self0 : O) (body : M (O * World) A) : M World O :=
  fun w => match body (self0, w) with
           | (Ok _, (self, w')) => (Ok self, w')
           | (Raise e, (_, w')) => (Raise e, w')
           end.

(** [needle in s] *)
Fixpoint contains (s needle : string) : bool :=
  prefix needle s ||
  match s with
  | EmptyString => false
  | String _ s' => contains s' needle
  end.

(** [s.lower()], a character being a code point below 256: the capital
    letters are A to Z (65 to 90) and U+00C0 to U+00DE without the
    multiplication sign U+00D7. *)
Definition lower_char (c : ascii) : ascii :=
  let n := nat_of_ascii c in
  if ((65 <=? n) && (n <=? 90)) ||
     ((192 <=? n) && (n <=? 222) && negb (n =? 215))
  then ascii_of_nat (n + 32) else c.

Fixpoint lower (s : string) : string :=
  match s with
  | EmptyString => EmptyString
  | String c s' => String (lower_char c) (lower s')
  end.

(** [input()] at the end of the input: an [EOFError], which no handler of
    the modelled code tells from other exceptions. *)
Definition EOFError : exn := mk_exn Exception "EOF when reading a line".

(* ================================================================= *)
(** * ai_assistant.py: the interactive mode *)

Module AiAssistantCli.
Section Defs.
Context {E : External}.
(** [os.path.exists] *)
Variable os_path_exists : string -> bool.
Import AiAssistant.

(** The answer to the [image] command once the path line has been read;
    [prompt_line] is the line that the [input()] inside [try] reads, [None]
    at the end of the input. *)
Definition image_command (image_path : string) (prompt_line : option string)
  : M St unit :=
  if os_path_exists image_path then
    try_except
      (image <- of_result (Image_open image_path) ;;
       print "Enter prompt (or press Enter for default): " ;;;
       prompt <- match prompt_line with
                 | Some line => ret (strip line)
                 | None => raise EOFError
                 end ;;
       let prompt := if truthy prompt then Some prompt else None in
       print (nl +++ "Processing image...") ;;;
       response <- process_image image prompt ;;
       print (nl +++ "Gemma: " +++ response))
      (fun e => print ("Error processing image: " +++ str e))
  else
    print ("Image not found: " +++ image_path).

(** Whether the [image] command reads a prompt line: the file exists and
    opens. *)
Definition reads_prompt (image_path : string) : bool :=
  if os_path_exists image_path
  then match Image_open image_path with Ok _ => true | Raise _ => false end
  else false.

(** The [while True] loop of [interactive_mode], on the lines that
    [input()] will read; every [input(p)] writes [p] first.  The lines carry
    no end-of-line character. *)
Fixpoint interactive_loop (stdin : list string) : M St unit :=
  match stdin with
  | [] => print (nl +++ "You: ") ;;; raise EOFError
  | line :: stdin1 =>
      print (nl +++ "You: ") ;;;
      let user_input := strip line in
      if String.eqb (lower user_input) "exit" then
        print "Exiting interactive mode."
      else if String.eqb (lower user_input) "reset" then
        reset_conversation ;;;
        interactive_loop stdin1
      else if String.eqb (lower user_input) "image" then
        print "Enter image path: " ;;;
        match stdin1 with
        | [] => raise EOFError
        | path_line :: stdin2 =>
            let image_path := strip path_line in
            match reads_prompt image_path, stdin2 with
            | true, prompt_line :: stdin3 =>
                image_command image_path (Some prompt_line) ;;;
                interactive_loop stdin3
            | _, _ =>
                image_command image_path None ;;;
                interactive_loop stdin2
            end
        end
      else if startswith (lower user_input) "document " then
        let doc_path := strip (substring 9 (String.length user_input - 9) user_input) in
        (if os_path_exists doc_path then
           print (nl +++ "Analyzing document...") ;;;
           response <- summarize_document doc_path ;;
           print (nl +++ "Gemma: " +++ response)
         else
           print ("Document not found: " +++ doc_path)) ;;;
        interactive_loop stdin1
      else
        response <- chat user_input None ;;
        print (nl +++ "Gemma: " +++ response) ;;;
        interactive_loop stdin1
  end.

Definition interactive_mode (stdin : list string) : M St unit :=
  print (nl +++ "=== Gemma 3 AI Assistant Interactive Mode ===") ;;;
  print "Type 'exit' to quit, 'reset' to clear conversation history, or 'image' to process an image." ;;;
  interactive_loop stdin.

End Defs.
End AiAssistantCli.

(* ================================================================= *)
(** * topic_expert.py *)

Module TopicExpert.
Section Defs.
Context {E : External}.

Record TopicExpert : Type := mk_expert {
  topic : string;
  context : option string;
  model_name : string;
  chat : list Message
}.

Definition St : Type := TopicExpert * World.

Definition set_chat (h : list Message) (self : TopicExpert) : TopicExpert :=
  mk_expert (topic self) (context self) (model_name self) h.

Definition print (line : string) : M St unit :=
  modify (fun '(self, w) => (self, print_line line w)).

(** [self.chat.send_message(content)] *)
Definition chat_send_message (content : string) : M St string :=
  zoom (fun '(self, w) => (chat self, w))
       (fun '(h, w) '(self, _) => (set_chat h self, w))
       (session_send (user_message content [])).

Definition system_prompt_of (topic : string) (context : option string) : string :=
  let system_prompt := "You are an expert on " +++ topic +++ "." in
  match context with
  | Some c => if truthy c
              then system_prompt +++ " Here's some specialized knowledge you have: " +++ c
              else system_prompt
  | None => system_prompt
  end.

(** The text that [_send_system_prompt] sends: it is built from [self.topic]
    alone, the argument [system_prompt] is not used. *)
Definition priming_message (topic : string) : string :=
  "I want you to act as an expert on " +++ topic +++ ". " +++
  "Please respond to all questions as if you are a leading authority on this subject. " +++
  "Keep your answers focused on " +++ topic +++ ".".

Definition _send_system_prompt (system_prompt : string) : M St unit :=
  try_except
    (s <- get ;;
     _ <- chat_send_message (priming_message (topic (fst s))) ;;
     ret tt)
    (fun e => print ("Error setting up expert role: " +++ str e)).

Definition __init__ (topic : string) (context : option string) (model_name : string)
  : M World TopicExpert :=
  let system_prompt := system_prompt_of topic context in
  construct (mk_expert topic context model_name (start_chat []))
            (_send_system_prompt system_prompt).

Definition ask (question : string) : M St string :=
  try_except
    (response <- chat_send_message question ;; ret response)
    (fun e => ret ("Error: " +++ str e)).

Definition reset : M St unit :=
  modify (fun '(self, w) => (set_chat (start_chat []) self, w)) ;;;
  s <- get ;;
  let system_prompt := system_prompt_of (topic (fst s)) (context (fst s)) in
  _send_system_prompt system_prompt.



(** The [while True] loop of [interactive_mode], on the lines that
    [input()] will read; each [input("\nYou: ")] writes its prompt first.
    The lines carry no end-of-line character. *)
Fixpoint interactive_loop (stdin : list string) : M St unit :=
  match stdin with
  | [] => print (nl +++ "You: ") ;;; raise EOFError
  | line :: stdin' =>
      print (nl +++ "You: ") ;;;
      let question := strip line in
      if String.eqb (lower question) "exit" then
        print "Goodbye!"
      else if String.eqb (lower question) "reset" then
        reset ;;;
        print "Conversation reset." ;;;
        interactive_loop stdin'
      else if negb (truthy question) then
        interactive_loop stdin'
      else
        response <- ask question ;;
        print (nl +++ "Expert: " +++ response) ;;;
        interactive_loop stdin'
  end.

Definition interactive_mode (stdin : list string) : M St unit :=
  s <- get ;;
  print (nl +++ "=== Gemma 3 " +++ topic (fst s) +++ " Expert ===") ;;;
  print "Ask questions about this topic or type 'exit' to quit, 'reset' to restart the conversation." ;;;
  interactive_loop stdin.

End Defs.
End TopicExpert.

(* ================================================================= *)
(** * gemma_api.py *)

Module GemmaApi.
Section Defs.
Context {E : External}.

Record GemmaAPI : Type := mk_api {
  model_name : string;
  chat_session : list Message
}.

Definition St : Type := GemmaAPI * World.

Definition on_world {A} (m : M World A) : M St A :=
  zoom snd (fun w '(self, _) => (self, w)) m.

Definition __init__ (model_name : string) : M World GemmaAPI :=
  ret (mk_api model_name (start_chat [])).

Definition generate_text (prompt : string) : M St string :=
  try_except
    (response <- on_world (generate_content [user_message prompt []]) ;; ret response)
    (fun e => ret ("Error generating text: " +++ str e)).

Definition chat (message : string) : M St string :=
  try_except
    (response <- zoom (fun '(self, w) => (chat_session self, w))
                      (fun '(h, w) '(self, _) => (mk_api (model_name self) h, w))
                      (session_send (user_message message [])) ;;
     ret response)
    (fun e => ret ("Error in chat: " +++ str e)).

Definition reset_chat : M St unit :=
  modify (fun '(self, w) => (mk_api (model_name self) (start_chat []), w)).

Definition vision_required : string :=
  "Error: You need to use a vision model (e.g., 'gemma-3-vision-it') for image processing.".

Definition process_image (image_path prompt : string) : M St string :=
  s <- get ;;
  if negb (contains (model_name (fst s)) "vision") then ret vision_required
  else
    try_except
      (image <- of_result (Image_open image_path) ;;
       response <- on_world (generate_content [user_message prompt [image]]) ;;
       ret response)
      (fun e => ret ("Error processing image: " +++ str e)).

Definition process_image_base64 (image_base64 prompt : string) : M St string :=
  s <- get ;;
  if negb (contains (model_name (fst s)) "vision") then ret vision_required
  else
    try_except
      (image_data <- of_result (b64decode image_base64) ;;
       image <- of_result (Image_open_bytes image_data) ;;
       response <- on_world (generate_content [user_message prompt [image]]) ;;
       ret response)
      (fun e => ret ("Error processing base64 image: " +++ str e)).

End Defs.
End GemmaApi.

(* ================================================================= *)
(** * The result store shared by the two web front ends *)

(** [queue.Queue()]: unbounded, first in first out. *)
Module Queue.

Definition put {A} (x : A) (q : list A) : list A := q ++ [x].

Definition get_nowait {A} : M (list A) A :=
  fun q => match q with
           | [] => (Raise (mk_exn Empty EmptyString), q)
           | x :: q' => (Ok x, q')
           end.

End Queue.

(** The dictionary a worker puts into [response_queue]. *)
Record Entry : Type := mk_entry {
  conversation_id : string;
  response : option string;
  error : option string
}.

(** The JSON body answered by [/api/status]. *)
Inductive Status : Type :=
| processing
| ready (conversation_id : string) (response error : option string).

(** A started [threading.Thread]: its target and arguments. *)
Inductive Job : Type :=
| text_job (prompt conversation_id : string)
| image_job (prompt image_data conversation_id : string).

Definition none_has_no_attribute (name : string) : exn :=
  mk_exn AttributeError ("'NoneType' object has no attribute '" +++ name +++ "'").

(* ================================================================= *)
(** * gemma_web_app.py *)

Module GemmaWebApp.
Section Defs.
Context {E : External}.

Record GemmaClient : Type := mk_client {
  use_vision : bool;
  model_name : string;
  chat_session : list Message
}.

(** The object that [GemmaClient.__init__] leaves: the model name chosen by
    [use_vision] and a session without history.  The SDK calls that the
    constructor makes on the way may fail; the constructor as a call is
    [GemmaClient_new] below. *)
Definition GemmaClient__init__ (use_vision : bool) : GemmaClient :=
  mk_client use_vision
            (if use_vision then "gemma-3-vision-it" else "gemma-3-8b-it")
            (start_chat []).

(** The call [GemmaClient(use_vision=...)]: the constructor asks the SDK for
    the model and its first session, which may fail; when it succeeds the
    object is [GemmaClient__init__ use_vision]. *)
Definition GemmaClient_new {L : Startup} (use_vision : bool) : result GemmaClient :=
  let self := GemmaClient__init__ use_vision in
  match GenerativeModel (model_name self) with
  | Ok _ => Ok self
  | Raise e => Raise e
  end.

(** [GemmaClient.send_message]: whatever fails inside is caught and returned
    as a string. *)
Definition send_message (message : string) (image_data : option string)
  : M (GemmaClient * World) string :=
  try_except
    (s <- get ;;
     if truthy_opt image_data && use_vision (fst s) then
       let image_data := match image_data with Some d => d | None => EmptyString end in
       image_data <- (if startswith image_data "data:image"
                      then index (split "," image_data) 1
                      else ret image_data) ;;
       image_bytes <- of_result (b64decode image_data) ;;
       image <- of_result (Image_open_bytes image_bytes) ;;
       response <- zoom snd (fun w '(self, _) => (self, w))
                        (generate_content [user_message message [image]]) ;;
       ret response
     else
       response <- zoom (fun '(self, w) => (chat_session self, w))
                        (fun '(h, w) '(self, _) =>
                           (mk_client (use_vision self) (model_name self) h, w))
                        (session_send (user_message message [])) ;;
       ret response)
    (fun e => ret ("Error: " +++ str e)).

Definition reset : M (GemmaClient * World) unit :=
  modify (fun '(self, w) =>
            (mk_client (use_vision self) (model_name self) (start_chat []), w)).

(** The module's globals, the threads started and not yet run, and the
    outside world. *)
Record App : Type := mk_app {
  API_KEY : option string;
  text_client : option GemmaClient;
  vision_client : option GemmaClient;
  response_queue : list Entry;
  threads : list Job;
  world : World
}.

Definition set_text_client (c : option GemmaClient) (g : App) : App :=
  mk_app (API_KEY g) c (vision_client g) (response_queue g) (threads g) (world g).
Definition set_vision_client (c : option GemmaClient) (g : App) : App :=
  mk_app (API_KEY g) (text_client g) c (response_queue g) (threads g) (world g).
Definition set_response_queue (q : list Entry) (g : App) : App :=
  mk_app (API_KEY g) (text_client g) (vision_client g) q (threads g) (world g).
Definition set_threads (t : list Job) (g : App) : App :=
  mk_app (API_KEY g) (text_client g) (vision_client g) (response_queue g) t (world g).
Definition set_world (w : World) (g : App) : App :=
  mk_app (API_KEY g) (text_client g) (vision_client g) (response_queue g) (threads g) w.

Definition print (line : string) : M App unit :=
  modify (fun g => set_world (print_line line (world g)) g).

(** [response_queue.put(entry)] *)
Definition response_queue_put (entry : Entry) : M App unit :=
  modify (fun g => set_response_queue (Queue.put entry (response_queue g)) g).

(** A method call on the object bound to [text_client]. *)
Definition on_text_client {A} (c : GemmaClient) (m : M (GemmaClient * World) A)
  : M App A :=
  zoom (fun g => (c, world g))
       (fun '(c', w) g => set_world w (set_text_client (Some c') g)) m.

Definition on_vision_client {A} (c : GemmaClient) (m : M (GemmaClient * World) A)
  : M App A :=
  zoom (fun g => (c, world g))
       (fun '(c', w) g => set_world w (set_vision_client (Some c') g)) m.

(** Each global is assigned when its client has been built: a failure of the
    second construction leaves the first assignment in place. *)
Definition initialize_clients {L : Startup} : M App bool :=
  g <- get ;;
  if negb (truthy_opt (API_KEY g)) then
    print "Warning: Google API key not found. Please set the GOOGLE_API_KEY environment variable." ;;;
    print "You can get an API key from Google AI Studio: https://makersuite.google.com/" ;;;
    ret false
  else
    try_except
      (print "Initializing Gemma clients..." ;;;
       client <- of_result (GemmaClient_new false) ;;
       modify (set_text_client (Some client)) ;;;
       client <- of_result (GemmaClient_new true) ;;
       modify (set_vision_client (Some client)) ;;;
       print "Gemma clients initialized successfully!" ;;;
       ret true)
      (fun e => print ("Error initializing Gemma clients: " +++ str e) ;;; ret false).

Definition process_text_query (prompt conversation_id : string) : M App unit :=
  try_except
    (g <- get ;;
     match text_client g with
     | None =>
         response_queue_put
           (mk_entry conversation_id
              (Some "Error: Gemma client not initialized. Please check your API key.")
              (Some "Client not initialized"))
     | Some c =>
         response <- on_text_client c (send_message prompt None) ;;
         response_queue_put (mk_entry conversation_id (Some response) None)
     end)
    (fun e => response_queue_put (mk_entry conversation_id None (Some (str e)))).

Definition process_image_query (prompt image_data conversation_id : string)
  : M App unit :=
  try_except
    (g <- get ;;
     match vision_client g with
     | None =>
         response_queue_put
           (mk_entry conversation_id
              (Some "Error: Gemma vision client not initialized. Please check your API key.")
              (Some "Client not initialized"))
     | Some c =>
         response <- on_vision_client c (send_message prompt (Some image_data)) ;;
         response_queue_put (mk_entry conversation_id (Some response) None)
     end)
    (fun e => response_queue_put (mk_entry conversation_id None (Some (str e)))).

(** [POST /api/text]: starts the worker thread and answers at once. *)
Definition text_query (prompt conversation_id : string) : M App Status :=
  modify (fun g => set_threads (threads g ++ [text_job prompt conversation_id]) g) ;;;
  ret processing.

(** [POST /api/image] *)
Definition image_query (prompt image_data conversation_id : string) : M App Status :=
  modify (fun g =>
            set_threads (threads g ++ [image_job prompt image_data conversation_id]) g) ;;;
  ret processing.

(** The target of a started thread. *)
Definition run_job (j : Job) : M App unit :=
  match j with
  | text_job prompt cid => process_text_query prompt cid
  | image_job prompt image_data cid => process_image_query prompt image_data cid
  end.

(** The scheduler lets the [n]-th of the started threads run to completion. *)
Definition run_thread (n : nat) : M App unit :=
  g <- get ;;
  match nth_error (threads g) n with
  | Some j =>
      modify (set_threads (firstn n (threads g) ++ skipn (S n) (threads g))) ;;;
      run_job j
  | None => ret tt
  end.

(** [POST /api/reset]: a client that is [None] is falsy and is skipped. *)
Definition reset_conversation (conversation_type : string) : M App unit :=
  g <- get ;;
  match (if String.eqb conversation_type "text" then text_client g else None) with
  | Some c => on_text_client c reset
  | None =>
      match (if String.eqb conversation_type "image" then vision_client g else None) with
      | Some v => on_vision_client v reset
      | None => ret tt
      end
  end.

(** [GET /api/status] *)
Definition check_status : M App Status :=
  try_except_only is_Empty
    (result <- zoom response_queue set_response_queue Queue.get_nowait ;;
     ret (ready (conversation_id result) (response result) (error result)))
    (fun _ => ret processing).

(** The JSON body answered by [/api/models]. *)
Inductive Models : Type :=
| models (names : list string)
| models_error (message : string).

(** [GET /api/models]; [listing] is the outcome of [genai.list_models()],
    the names of the models it yields. *)
Definition get_models (listing : result (list string)) : Models :=
  match listing with
  | Ok names => models (filter (fun name => contains (lower name) "gemma") names)
  | Raise e => models_error (str e)
  end.

End Defs.
End GemmaWebApp.

(* ================================================================= *)
(** * web_interface.py *)

Module WebInterface.
Section Defs.
Context {E : External}.

(** The module's globals ([None] until [load_models] has run), the threads
    started and not yet run, and the outside world. *)
Record App : Type := mk_app {
  chat_sampler : option (list Message);
  vision_chat_sampler : option (list Message);
  response_queue : list Entry;
  threads : list Job;
  world : World
}.

Definition set_chat_sampler (s : option (list Message)) (g : App) : App :=
  mk_app s (vision_chat_sampler g) (response_queue g) (threads g) (world g).
Definition set_vision_chat_sampler (s : option (list Message)) (g : App) : App :=
  mk_app (chat_sampler g) s (response_queue g) (threads g) (world g).
Definition set_response_queue (q : list Entry) (g : App) : App :=
  mk_app (chat_sampler g) (vision_chat_sampler g) q (threads g) (world g).
Definition set_threads (t : list Job) (g : App) : App :=
  mk_app (chat_sampler g) (vision_chat_sampler g) (response_queue g) t (world g).
Definition set_world (w : World) (g : App) : App :=
  mk_app (chat_sampler g) (vision_chat_sampler g) (response_queue g) (threads g) w.

Definition print (line : string) : M App unit :=
  modify (fun g => set_world (print_line line (world g)) g).

(** Of the seven globals that [load_models] assigns, the state holds the
    two samplers; the models, their parameters and the tokenizer are read by
    no other function.  No handler surrounds the calls of the library: the
    first one that fails ends [load_models], and the globals after it keep
    their value. *)
Definition load_models {L : Startup} : M App unit :=
  print "Loading Gemma 3 models..." ;;;
  of_result (gm_call gm_Gemma3_4B) ;;;
  of_result (gm_call gm_load_params_4B_IT) ;;;
  of_result (gm_call gm_Gemma3Vision_4B) ;;;
  of_result (gm_call gm_load_params_VISION_4B_IT) ;;;
  of_result (gm_call gm_Tokenizer) ;;;
  of_result (gm_call (gm_ChatSampler false)) ;;;
  modify (set_chat_sampler (Some (start_chat []))) ;;;
  of_result (gm_call (gm_ChatSampler true)) ;;;
  modify (set_vision_chat_sampler (Some (start_chat []))) ;;;
  print "Models loaded successfully!".

Definition response_queue_put (entry : Entry) : M App unit :=
  modify (fun g => set_response_queue (Queue.put entry (response_queue g)) g).

(** [chat_sampler.send_message(prompt)] on the global, which may still be
    [None]. *)
Definition chat_sampler_send_message (prompt : string) : M App string :=
  g <- get ;;
  match chat_sampler g with
  | None => raise (none_has_no_attribute "send_message")
  | Some h =>
      zoom (fun g => (h, world g))
           (fun '(h', w) g => set_world w (set_chat_sampler (Some h') g))
           (session_send (user_message prompt []))
  end.

(** [vision_chat_sampler.send_message(prompt, images=imgs)] *)
Definition vision_chat_sampler_send_message (prompt : string) (imgs : list Image)
  : M App string :=
  g <- get ;;
  match vision_chat_sampler g with
  | None => raise (none_has_no_attribute "send_message")
  | Some h =>
      zoom (fun g => (h, world g))
           (fun '(h', w) g => set_world w (set_vision_chat_sampler (Some h') g))
           (session_send (user_message prompt imgs))
  end.

Definition process_text_query (prompt conversation_id : string) : M App unit :=
  try_except
    (response <- chat_sampler_send_message prompt ;;
     response_queue_put (mk_entry conversation_id (Some response) None))
    (fun e => response_queue_put (mk_entry conversation_id None (Some (str e)))).

Definition process_image_query (prompt image_data conversation_id : string)
  : M App unit :=
  try_except
    (payload <- index (split "," image_data) 1 ;;
     image_bytes <- of_result (b64decode payload) ;;
     image <- of_result (Image_open_bytes image_bytes) ;;
     response <- vision_chat_sampler_send_message prompt [image] ;;
     response_queue_put (mk_entry conversation_id (Some response) None))
    (fun e => response_queue_put (mk_entry conversation_id None (Some (str e)))).

Definition text_query (prompt conversation_id : string) : M App Status :=
  modify (fun g => set_threads (threads g ++ [text_job prompt conversation_id]) g) ;;;
  ret processing.

Definition image_query (prompt image_data conversation_id : string) : M App Status :=
  modify (fun g =>
            set_threads (threads g ++ [image_job prompt image_data conversation_id]) g) ;;;
  ret processing.

Definition run_job (j : Job) : M App unit :=
  match j with
  | text_job prompt cid => process_text_query prompt cid
  | image_job prompt image_data cid => process_image_query prompt image_data cid
  end.

Definition run_thread (n : nat) : M App unit :=
  g <- get ;;
  match nth_error (threads g) n with
  | Some j =>
      modify (set_threads (firstn n (threads g) ++ skipn (S n) (threads g))) ;;;
      run_job j
  | None => ret tt
  end.

(** [POST /api/reset]: [reset()] is called on the global whether or not the
    models are loaded. *)
Definition reset_conversation (conversation_type : string) : M App unit :=
  g <- get ;;
  if String.eqb conversation_type "text" then
    match chat_sampler g with
    | None => raise (none_has_no_attribute "reset")
    | Some _ => modify (set_chat_sampler (Some (start_chat [])))
    end
  else
    match vision_chat_sampler g with
    | None => raise (none_has_no_attribute "reset")
    | Some _ => modify (set_vision_chat_sampler (Some (start_chat [])))
    end.

Definition check_status : M App Status :=
  try_except_only is_Empty
    (result <- zoom response_queue set_response_queue Queue.get_nowait ;;
     ret (ready (conversation_id result) (response result) (error result)))
    (fun _ => ret processing).

End Defs.
End WebInterface.

(* ================================================================= *)
(** * Observations and test doubles *)

(** The text of the message that one model call adds to the conversation:
    the last message of the content sent. *)
Definition sent_prompt (contents : list Message) : string :=
  text (last contents (user_message EmptyString [])).

(** The number of chunks of a text of [len] characters: [ceil(len / c)]. *)
Definition chunk_count (len c : nat) : nat := (len + c - 1) / c.

(** The model answers every call. *)
Definition model_total {E : External} : Prop :=
  forall contents, exists reply, generate contents = Ok reply.

(** A run that started in world [w] rejected the request: it returned an
    error string and the model received no call. *)
Definition rejected_without_call {S : Type}
    (run : result string * (S * World)) (w : World) : Prop :=
  (exists msg, fst run = Ok msg /\ startswith msg "Error:" = true) /\
  invocations (snd (snd run)) = invocations w.

(** The hidden message that primes a topic expert. *)
Definition primer (topic : string) : Message :=
  user_message (TopicExpert.priming_message topic) [].

(** The history of a session in which only the priming message has been
    sent: the message and the reply to it, or nothing when the send failed. *)
Definition primed_history {E : External} (topic : string) : list Message :=
  match generate [primer topic] with
  | Ok reply => [primer topic; assistant_message reply]
  | Raise _ => []
  end.

(** What happens to the result store, in the order it happens: a worker
    completes and publishes an entry, or a caller polls. *)
Inductive event : Type :=
| completed (entry : Entry)
| polled.

(** The answers to the polls of a sequence of events, and the final state. *)
Fixpoint run_events {App : Type} (put : Entry -> M App unit) (poll : M App Status)
    (evs : list event) (g : App) : list Status * App :=
  match evs with
  | [] => ([], g)
  | completed entry :: evs' => run_events put poll evs' (snd (put entry g))
  | polled :: evs' =>
      let (r, g') := poll g in
      let (answers, g'') := run_events put poll evs' g' in
      (match r with Ok a => a :: answers | Raise _ => answers end, g'')
  end.

(** The entries handed to pollers. *)
Fixpoint delivered (answers : list Status) : list Entry :=
  match answers with
  | [] => []
  | processing :: rest => delivered rest
  | ready cid resp err :: rest => mk_entry cid resp err :: delivered rest
  end.

(** The entries published. *)
Fixpoint completions (evs : list event) : list Entry :=
  match evs with
  | [] => []
  | completed entry :: evs' => entry :: completions evs'
  | polled :: evs' => completions evs'
  end.

(** The work of an image job of [web_interface.py]: what its worker runs
    inside [try] before it publishes. *)
Definition image_handler {E : External} (prompt image_data : string)
  : M WebInterface.App string :=
  payload <- index (split "," image_data) 1 ;;
  image_bytes <- of_result (b64decode payload) ;;
  image <- of_result (Image_open_bytes image_bytes) ;;
  WebInterface.vision_chat_sampler_send_message prompt [image].

(** The entry a worker publishes for the outcome of its handler when it
    routes a failure to the error field. *)
Definition entry_of (conversation_id : string) (outcome : result string) : Entry :=
  match outcome with
  | Ok response => mk_entry conversation_id (Some response) None
  | Raise e => mk_entry conversation_id None (Some (str e))
  end.

Definition job_conversation (j : Job) : string :=
  match j with
  | text_job _ cid => cid
  | image_job _ _ cid => cid
  end.

(** [c in s] for a character *)
Fixpoint has_char (c : ascii) (s : string) : bool :=
  match s with
  | EmptyString => false
  | String x s' => Ascii.eqb x c || has_char c s'
  end.

(** Decoding of a base64 payload into an image: [b64decode], then
    [Image.open]. *)
Definition decode_image {E : External} (payload : string) : result Image :=
  match b64decode payload with
  | Ok image_bytes => Image_open_bytes image_bytes
  | Raise e => Raise e
  end.

(** The run of [GemmaClient.send_message] on a vision client once the
    payload to decode is known. *)
Definition send_decoded {E : External} (message payload : string) (c : GemmaWebApp.GemmaClient)
    (w : World) : result string * (GemmaWebApp.GemmaClient * World) :=
  match decode_image payload with
  | Ok image =>
      let contents := [user_message message [image]] in
      match generate contents with
      | Ok reply => (Ok reply, (c, record_invocation contents w))
      | Raise x => (Ok ("Error: " +++ str x), (c, record_invocation contents w))
      end
  | Raise x => (Ok ("Error: " +++ str x), (c, w))
  end.

(** The state [s'] of an assistant continues [s]: the modality is the same,
    and the history, the record of model calls and the output have only
    grown. *)
Definition continues (s s' : AiAssistant.St) : Prop :=
  AiAssistant.use_multimodal (fst s') = AiAssistant.use_multimodal (fst s) /\
  (exists turns,
     AiAssistant.chat_sampler (fst s') = AiAssistant.chat_sampler (fst s) ++ turns) /\
  (exists calls, invocations (snd s') = invocations (snd s) ++ calls) /\
  (exists lines, stdout (snd s') = stdout (snd s) ++ lines).

(** A computation that, however it ends, leaves a state that continues the
    one it started in. *)
Definition append_only {A : Type} (m : M AiAssistant.St A) : Prop :=
  forall s r s', m s = (r, s') -> continues s s'.

(** [calls] are the consecutive sends of one conversation that starts with
    history [h] and ends with history [h']: every call carries the whole
    conversation so far, the replies included, and one new user message. *)
Fixpoint chained (h : list Message) (calls : list (list Message))
    (h' : list Message) : Prop :=
  match calls with
  | [] => h' = h
  | c :: rest =>
      exists m reply,
        c = h ++ [m] /\ role m = user /\
        chained (c ++ [assistant_message reply]) rest h'
  end.

(** The extractor that [extract_text_from_document] selects for a
    lower-cased extension, if the format is supported. *)
Definition extractor_for {E : External} (file_extension : string)
  : option (string -> result string) :=
  if String.eqb file_extension ".pdf" then Some AiAssistant._extract_from_pdf
  else if String.eqb file_extension ".docx" then Some AiAssistant._extract_from_docx
  else if String.eqb file_extension ".txt" then Some AiAssistant._extract_from_txt
  else if existsb (String.eqb file_extension) [".png"; ".jpg"; ".jpeg"]
       then Some AiAssistant._extract_from_image
  else None.

(** The text of a file could not be extracted, and [message] is what
    [extract_text_from_document] returns in its place. *)
Definition extraction_failed {E : External} (file_path message : string) : Prop :=
  match extractor_for (splitext_lower file_path) with
  | Some extractor =>
      exists e, extractor file_path = Raise e /\
                message = "Error extracting text: " +++ str e
  | None => message = "Unsupported file format: " +++ splitext_lower file_path
  end.

(** The command that ends an interactive session: [exit] in any case, with
    any surrounding whitespace. *)
Definition is_exit (line : string) : bool := String.eqb (lower (strip line)) "exit".

(** A stub of the collaborators with chosen outcomes: the model as in
    [stub]; [ext] is the extension of every path; [file] is the outcome of
    reading any file or of recognising the text of any image; [image] is the
    outcome of opening any image. *)
Definition stub_io (reply : option string) (ext : string) (file : result string)
    (image : result Image) : External := {|
  generate := fun _ => match reply with
                       | Some r => Ok r
                       | None => Raise (mk_exn Exception "model unavailable")
                       end;
  b64decode := fun s => Ok s;
  Image_open_bytes := fun _ => image;
  Image_open := fun _ => image;
  image_to_string := fun _ => file;
  splitext_lower := fun _ => ext;
  pdf_page_texts := fun _ => match file with Ok d => Ok [d] | Raise e => Raise e end;
  docx_paragraphs := fun _ => match file with Ok d => Ok [d] | Raise e => Raise e end;
  read_text := fun _ => file
|}.

(** The prompt that [analyze_image_document] sends after the visual and the
    text analysis. *)
Definition combined_prompt : string :=
  "You've analyzed this document both visually and through its text content. " +++
  "Please provide a comprehensive analysis combining both perspectives:".

(** A line that the interactive mode of the assistant sends to [chat]: it
    is no command. *)
Definition is_chat_line (line : string) : bool :=
  let user_input := lower (strip line) in
  negb (String.eqb user_input "exit") && negb (String.eqb user_input "reset") &&
  negb (String.eqb user_input "image") && negb (startswith user_input "document ").

(** The path named by a [document] command. *)
Definition document_path (line : string) : string :=
  let user_input := strip line in
  strip (substring 9 (String.length user_input - 9) user_input).

(** The client [c] with its conversation emptied. *)
Definition cleared (c : GemmaWebApp.GemmaClient) : GemmaWebApp.GemmaClient :=
  GemmaWebApp.mk_client (GemmaWebApp.use_vision c) (GemmaWebApp.model_name c) [].

(** [needle] occurs in [s]. *)
Definition occurs (needle s : string) : Prop :=
  exists before after, s = before +++ needle +++ after.

(** The route of the web application that starts a job. *)
Definition web_app_submit (j : Job) : M GemmaWebApp.App Status :=
  match j with
  | text_job prompt cid => GemmaWebApp.text_query prompt cid
  | image_job prompt image_data cid => GemmaWebApp.image_query prompt image_data cid
  end.

(** A stub of the start-up calls with chosen outcomes. *)
Definition startup_stub (model : string -> result unit)
    (gm : gm_step -> result unit) : Startup :=
  {| GenerativeModel := model; gm_call := gm |}.

(** The calls of the gemma library that [load_models] of
    [web_interface.py] makes, in order. *)
Definition load_order : list gm_step :=
  [gm_Gemma3_4B; gm_load_params_4B_IT; gm_Gemma3Vision_4B;
   gm_load_params_VISION_4B_IT; gm_Tokenizer; gm_ChatSampler false;
   gm_ChatSampler true].

Definition empty_world : World := mk_world [] [].

(** A recording stub of the collaborators: the model answers [reply] to
    every call, or fails on every call when [reply] is [None]; [doc] is the
    content of every text file; base64 payloads decode to themselves and
    every byte string parses as an image. *)
Definition stub (reply : option string) (doc : string) : External := {|
  generate := fun _ => match reply with
                       | Some r => Ok r
                       | None => Raise (mk_exn Exception "model unavailable")
                       end;
  b64decode := fun s => Ok s;
  Image_open_bytes := fun b => Ok (PIL_Image b);
  Image_open := fun path => Ok (PIL_Image path);
  image_to_string := fun _ => Ok doc;
  splitext_lower := fun _ => ".txt";
  pdf_page_texts := fun _ => Ok [doc];
  docx_paragraphs := fun _ => Ok [doc];
  read_text := fun _ => Ok doc
|}.

(** Symbolic execution of the monadic plumbing. *)
Ltac py_run :=
  cbv beta iota zeta delta
    [bind ret get modify raise of_result try_except try_except_only zoom fst snd].

(* ================================================================= *)
(** * Strings and ranges *)

Lemma append_empty_r (s : string) : s +++ EmptyString = s.
Proof. induction s as [|c s IH]; simpl; [reflexivity | now rewrite IH]. Qed.

Lemma append_assoc (a b c : string) : (a +++ b) +++ c = a +++ (b +++ c).
Proof. induction a as [|x a IH]; simpl; [reflexivity | now rewrite IH]. Qed.

Lemma substring_all (s : string) (n : nat) :
  String.length s <= n -> substring 0 n s = s.
Proof.
  revert n; induction s as [|c s IH]; intros [|n] H; simpl in *;
    try reflexivity; try lia.
  rewrite IH by lia; reflexivity.
Qed.

Lemma substring_past_end (s : string) (n m : nat) :
  String.length s <= n -> substring n m s = EmptyString.
Proof.
  revert n; induction s as [|c s IH]; intros [|n] H; simpl in *;
    try lia; try (destruct m; reflexivity).
  apply IH; lia.
Qed.

(** A prefix of length [a] followed by the next [b] characters is the
    prefix of length [a + b]. *)
Lemma substring_glue (s : string) (a b : nat) :
  substring 0 a s +++ substring a b s = substring 0 (a + b) s.
Proof.
  revert a; induction s as [|c s IH]; intros [|a]; simpl.
  - destruct b; reflexivity.
  - destruct b; reflexivity.
  - reflexivity.
  - rewrite IH; reflexivity.
Qed.

Lemma length_substring (s : string) (n m : nat) :
  String.length (substring n m s) = Nat.min m (String.length s - n).
Proof.
  revert n m; induction s as [|c s IH]; intros [|n] [|m]; simpl;
    try reflexivity; rewrite IH; simpl; try rewrite Nat.sub_0_r; lia.
Qed.

Lemma concat_empty_snoc (l : list string) (x : string) :
  String.concat EmptyString (l ++ [x]) = String.concat EmptyString l +++ x.
Proof.
  induction l as [|y l IH]; simpl; [reflexivity|].
  destruct l as [|z l]; simpl in *; [reflexivity|].
  rewrite IH, append_assoc; reflexivity.
Qed.

Lemma slice_chunk (s : string) (i c : nat) : slice s i (i + c) = substring i c s.
Proof. unfold slice; replace (i + c - i) with c by lia; reflexivity. Qed.

(** The chunks cut at the first [n] multiples of [c] concatenate to the
    prefix of length [n * c]. *)
Lemma concat_chunks_prefix (s : string) (c n : nat) :
  String.concat EmptyString
    (map (fun i => slice s i (i + c)) (map (fun k => 0 + k * c) (seq 0 n)))
  = substring 0 (n * c) s.
Proof.
  induction n as [|n IH].
  - simpl. destruct s; reflexivity.
  - rewrite seq_S, !map_app; cbn [map].
    rewrite concat_empty_snoc, IH, slice_chunk, substring_glue.
    f_equal; lia.
Qed.

Lemma range_step (stop step : nat) :
  0 < step -> 0 < stop ->
  range 0 stop step = Ok (map (fun k => 0 + k * step) (seq 0 ((stop - 1) / step + 1))).
Proof.
  intros Hs Hn; unfold range.
  destruct (Nat.eqb_spec step 0); [lia|].
  destruct (Nat.ltb_spec 0 stop); [|lia].
  rewrite Nat.sub_0_r; reflexivity.
Qed.

Lemma chunk_count_eq (len c : nat) :
  0 < c -> 0 < len -> chunk_count len c = (len - 1) / c + 1.
Proof.
  intros Hc Hl; unfold chunk_count.
  replace (len + c - 1) with ((len - 1) + 1 * c) by lia.
  rewrite Nat.div_add by lia; reflexivity.
Qed.

(** The quotient and remainder of [len - 1] locate the last chunk. *)
Lemma last_chunk_arith (len c : nat) :
  0 < c -> 0 < len ->
  let q := (len - 1) / c in
  q * c < len /\ len <= (q + 1) * c /\
  len - q * c = (if len mod c =? 0 then c else len mod c).
Proof.
  intros Hc Hl q.
  pose proof (Nat.div_mod_eq (len - 1) c) as Hdm.
  pose proof (Nat.mod_upper_bound (len - 1) c ltac:(lia)) as Hr.
  fold q in Hdm.
  assert (Hlen : len = c * q + ((len - 1) mod c + 1)) by lia.
  set (r := (len - 1) mod c) in *.
  repeat split; try nia.
  destruct (Nat.eq_dec (r + 1) c) as [Heq|Hne].
  - assert (Hm : len mod c = 0).
    { symmetry; apply (Nat.mod_unique len c (q + 1) 0); nia. }
    rewrite Hm; simpl; nia.
  - assert (Hm : len mod c = r + 1).
    { symmetry; apply (Nat.mod_unique len c q (r + 1)); lia. }
    rewrite Hm. destruct (Nat.eqb_spec (r + 1) 0); [lia | nia].
Qed.

Lemma nth_map_seq {A} (h : nat -> A) (n k : nat) (d : A) :
  k < n -> nth k (map h (seq 0 n)) d = h k.
Proof.
  intro Hk.
  rewrite (nth_indep _ d (h 0)) by (rewrite length_map, length_seq; exact Hk).
  rewrite map_nth, seq_nth by exact Hk; reflexivity.
Qed.

Lemma last_map_seq {A} (h : nat -> A) (n : nat) (d : A) :
  last (map h (seq 0 (n + 1))) d = h n.
Proof.
  rewrite Nat.add_1_r, seq_S, map_app; cbn [map]; apply last_last.
Qed.

(* ================================================================= *)
(** * Chunking ([GemmaAssistant.summarize_document]) *)

(** C1.  For every text [T] and positive chunk size [C] with [len(T) > C],
    the split of the summarizer succeeds and yields contiguous,
    non-overlapping chunks: chunk [k] is the slice of [T] that starts at
    offset [k * C]; every chunk but the last has length exactly [C]; the last
    has length [len(T) mod C], or [C] when [C] divides [len(T)]; and the
    chunks concatenated in index order are exactly [T]. *)
Theorem split_chunks_partition (C : nat) (T : string) :
  0 < C -> C < String.length T ->
  exists chunks,
    AiAssistant.split_chunks C T = Ok chunks /\
    String.concat EmptyString chunks = T /\
    List.length chunks = chunk_count (String.length T) C /\
    (forall k, k < List.length chunks ->
       nth k chunks EmptyString = substring (k * C) C T) /\
    (forall k, k + 1 < List.length chunks ->
       String.length (nth k chunks EmptyString) = C) /\
    String.length (last chunks EmptyString) =
      (if String.length T mod C =? 0 then C else String.length T mod C).
Proof.
  intros HC HT.
  assert (Hlen : 0 < String.length T) by lia.
  destruct (last_chunk_arith (String.length T) C HC Hlen) as (Hlo & Hhi & Hlast).
  set (q := (String.length T - 1) / C) in *.
  unfold AiAssistant.split_chunks.
  rewrite (range_step _ _ HC Hlen); fold q.
  eexists; split; [reflexivity|].
  split; [|split; [|split; [|split]]].
  - rewrite concat_chunks_prefix; apply substring_all; lia.
  - rewrite !length_map, length_seq, chunk_count_eq by lia; reflexivity.
  - intros k; rewrite !length_map, length_seq; intro Hk.
    rewrite map_map, nth_map_seq by exact Hk.
    rewrite slice_chunk; reflexivity.
  - intros k; rewrite !length_map, length_seq; intro Hk.
    rewrite map_map, nth_map_seq by lia.
    rewrite slice_chunk, length_substring; simpl. nia.
  - rewrite map_map, last_map_seq, slice_chunk, length_substring; simpl.
    rewrite Hlast; lia.
Qed.

(** The text of fifteen characters of the specification's example, cut with
    chunk size ten. *)
Lemma split_chunks_partition_witness :
  exists chunks,
    AiAssistant.split_chunks 10 "abcdefghijklmno" = Ok chunks /\
    String.concat EmptyString chunks = "abcdefghijklmno" /\
    List.length chunks = chunk_count 15 10 /\
    (forall k, k < List.length chunks ->
       nth k chunks EmptyString = substring (k * 10) 10 "abcdefghijklmno") /\
    (forall k, k + 1 < List.length chunks ->
       String.length (nth k chunks EmptyString) = 10) /\
    String.length (last chunks EmptyString) = 5.
Proof.
  apply (split_chunks_partition 10 "abcdefghijklmno"); simpl; lia.
Defined.

Example split_chunks_15_10 :
  AiAssistant.split_chunks 10 "abcdefghijklmno" = Ok ["abcdefghij"; "klmno"].
Proof. reflexivity. Qed.

Example split_chunks_zero_step :
  AiAssistant.split_chunks 0 "abc"
  = Raise (mk_exn ValueError "range() arg 3 must not be zero").
Proof. reflexivity. Qed.

Section Summarizer.
Context {E : External}.
Import AiAssistant.

Lemma sent_prompt_snoc (history : list Message) (prompt : string) (imgs : list Image) :
  sent_prompt (history ++ [user_message prompt imgs]) = prompt.
Proof. unfold sent_prompt; rewrite last_last; reflexivity. Qed.

(** One call of [process_text]: the model is invoked once, with the history
    and the full prompt; the reply is recorded in the history on success. *)
Lemma process_text_run (text prompt : string) (self : GemmaAssistant) (w : World) :
  process_text text (Some prompt) (self, w) =
  let contents := chat_sampler self ++ [user_message (prompt +++ nl +++ nl +++ text) []] in
  match generate contents with
  | Ok reply =>
      (Ok reply,
       (mk_assistant (use_multimodal self) (contents ++ [assistant_message reply]),
        record_invocation contents w))
  | Raise e =>
      (Raise e,
       (mk_assistant (use_multimodal self) (chat_sampler self),
        record_invocation contents w))
  end.
Proof.
  unfold process_text, chat_sampler_send_message, zoom, bind, session_send; simpl.
  destruct (generate _); reflexivity.
Qed.

(** The loop over the chunks: one model call per element, in list order. *)
Lemma summarize_loop (Hmodel : model_total) (n : nat) (l : list (nat * string)) :
  forall self w,
  exists summaries self' w' new,
    for_each l (fun '(i, chunk) =>
        print ("Processing chunk " +++ str_nat (i + 1) +++ "/" +++
               str_nat n +++ "...") ;;;
        let prompt := chunk_prompt i n in
        summary <- process_text chunk (Some prompt) ;;
        ret summary) (self, w)
    = (Ok summaries, (self', w')) /\
    invocations w' = invocations w ++ new /\
    map sent_prompt new
    = map (fun '(i, chunk) => chunk_prompt i n +++ nl +++ nl +++ chunk) l /\
    List.length summaries = List.length l.
Proof.
  match goal with |- context [for_each _ ?b] => set (body := b) end.
  induction l as [|[i chunk] l IH]; intros self w.
  - exists [], self, w, []; simpl; rewrite app_nil_r; repeat split; reflexivity.
  - cbn [for_each]. unfold bind at 1. unfold body at 1.
    unfold bind at 1, print at 1, modify at 1. cbv beta iota zeta.
    unfold bind at 1. rewrite process_text_run. cbv zeta.
    match goal with |- context [generate ?c] =>
      destruct (Hmodel c) as [reply Hreply]; rewrite Hreply; set (contents := c) end.
    unfold ret at 1. unfold bind at 1.
    match goal with |- context [for_each l body (?s, ?w1)] =>
      destruct (IH s w1) as (summaries & self' & w' & new & Hrun & Hinv & Hprompts & Hlen)
    end.
    rewrite Hrun. unfold ret.
    exists (reply :: summaries), self', w', (contents :: new).
    repeat split.
    + rewrite Hinv; simpl; rewrite <- app_assoc; reflexivity.
    + cbn [map]; rewrite Hprompts; f_equal.
      unfold contents; apply sent_prompt_snoc.
    + simpl; rewrite Hlen; reflexivity.
Qed.

Lemma split_chunks_eval (C : nat) (T : string) :
  0 < C -> 0 < String.length T ->
  exists chunks,
    split_chunks C T = Ok chunks /\
    List.length chunks = chunk_count (String.length T) C.
Proof.
  intros HC HT; unfold split_chunks.
  rewrite (range_step _ _ HC HT).
  eexists; split; [reflexivity|].
  rewrite !length_map, length_seq, chunk_count_eq by lia; reflexivity.
Qed.

Lemma length_enumerate {A} (l : list A) : List.length (enumerate l) = List.length l.
Proof. unfold enumerate; rewrite length_combine, length_seq; lia. Qed.

Lemma truthy_nonempty (s : string) : s <> EmptyString -> truthy s = true.
Proof. destruct s; [congruence | reflexivity]. Qed.

(** C2.  For every non-empty extracted text [T] and positive chunk size [C],
    with a model that answers, [summarize_document] returns and makes exactly
    one model call when [len(T) <= C] (the whole text, no combine pass), and
    exactly [N + 1] calls when [len(T) > C], where [N = ceil(len(T) / C)] is
    the number of chunks: one call per chunk in index order, each with its
    "part i of N" prompt, then one combine call over the summaries. *)
Theorem summarize_call_count (Hmodel : model_total) (C : nat) (file_path : string)
    (self : GemmaAssistant) (w : World) :
  let T := extract_text_from_document file_path in
  T <> EmptyString -> 0 < C ->
  exists reply self' w' new,
    summarize_document_with C file_path (self, w) = (Ok reply, (self', w')) /\
    invocations w' = invocations w ++ new /\
    List.length new =
      (if String.length T <=? C then 1 else chunk_count (String.length T) C + 1) /\
    (String.length T <= C ->
       map sent_prompt new = ["Please summarize this document:" +++ nl +++ nl +++ T]) /\
    (C < String.length T ->
       exists chunks summaries,
         split_chunks C T = Ok chunks /\
         List.length chunks = chunk_count (String.length T) C /\
         List.length summaries = List.length chunks /\
         map sent_prompt new =
           map (fun '(i, chunk) =>
                  chunk_prompt i (List.length chunks) +++ nl +++ nl +++ chunk)
               (enumerate chunks)
           ++ [combine_prompt +++ nl +++ nl +++ String.concat (nl +++ nl) summaries]).
Proof.
  intros T HT HC.
  unfold summarize_document_with; fold T.
  rewrite (truthy_nonempty T HT); cbn [negb].
  destruct (Nat.ltb_spec C (String.length T)) as [Hlong|Hshort].
  - destruct (split_chunks_eval C T HC ltac:(lia)) as (chunks & Hsplit & Hcount).
    rewrite Hsplit. unfold bind at 1, of_result at 1. unfold bind at 1.
    destruct (summarize_loop Hmodel (List.length chunks) (enumerate chunks) self w)
      as (summaries & self1 & w1 & new1 & Hrun & Hinv & Hprompts & Hlen).
    cbv zeta in Hrun. rewrite Hrun. unfold bind at 1. rewrite process_text_run. cbv zeta.
    match goal with |- context [generate ?c] =>
      destruct (Hmodel c) as [reply Hreply]; rewrite Hreply; set (contents := c) end.
    unfold ret. rewrite length_enumerate in Hlen.
    eexists reply, _, _, (new1 ++ [contents]).
    split; [reflexivity|].
    assert (Hn1 : List.length new1 = List.length chunks).
    { rewrite <- (length_map sent_prompt), Hprompts, length_map.
      apply length_enumerate. }
    repeat split.
    + simpl; rewrite Hinv, <- app_assoc; reflexivity.
    + rewrite length_app, Hn1, Hcount; simpl.
      destruct (Nat.leb_spec (String.length T) C); [lia | reflexivity].
    + intros Hle; lia.
    + intros _; exists chunks, summaries.
      repeat split; try assumption; try reflexivity.
      rewrite map_app, Hprompts; cbn [map]; f_equal.
      unfold contents; rewrite sent_prompt_snoc; reflexivity.
  - rewrite process_text_run; cbv zeta.
    match goal with |- context [generate ?c] =>
      destruct (Hmodel c) as [reply Hreply]; rewrite Hreply; set (contents := c) end.
    eexists reply, _, _, [contents].
    split; [reflexivity|].
    repeat split.
    + simpl.
      destruct (Nat.leb_spec (String.length T) C); [reflexivity | lia].
    + intros _; cbn [map]; unfold contents; rewrite sent_prompt_snoc; reflexivity.
    + intros Hlt; lia.
Qed.

(** Whatever the model does, the loop only adds calls to the record, and it
    adds at least one when there is a chunk. *)
Lemma summarize_loop_calls (n : nat) (l : list (nat * string)) :
  forall self w,
  exists r self' w' new,
    for_each l (fun '(i, chunk) =>
        print ("Processing chunk " +++ str_nat (i + 1) +++ "/" +++
               str_nat n +++ "...") ;;;
        summary <- process_text chunk (Some (chunk_prompt i n)) ;;
        ret summary) (self, w)
    = (r, (self', w')) /\
    invocations w' = invocations w ++ new /\
    (l <> [] -> new <> []).
Proof.
  match goal with |- context [for_each _ ?b] => set (body := b) end.
  induction l as [|[i chunk] l IH]; intros self w.
  - exists (Ok []), self, w, []; simpl; rewrite app_nil_r.
    repeat split; congruence.
  - cbn [for_each]. unfold bind at 1. unfold body at 1.
    unfold bind at 1, print at 1, modify at 1. cbv beta iota zeta.
    unfold bind at 1. rewrite process_text_run. cbv zeta.
    match goal with |- context [generate ?c] =>
      set (contents := c); destruct (generate contents) as [reply|e] end.
    + unfold ret at 1. unfold bind at 1.
      match goal with |- context [for_each l body (?s, ?w1)] =>
        destruct (IH s w1) as (r1 & self1 & w1' & new1 & Hrun & Hinv & _)
      end.
      rewrite Hrun.
      exists (match r1 with Ok ys => Ok (reply :: ys) | Raise e => Raise e end),
             self1, w1', (contents :: new1).
      repeat split.
      * destruct r1; reflexivity.
      * rewrite Hinv; simpl; rewrite <- app_assoc; reflexivity.
      * discriminate.
    + eexists (Raise e), _, _, [contents].
      repeat split; discriminate.
Qed.

Lemma fold_pages_nonempty (pages : list string) (acc : string) :
  acc <> EmptyString ->
  fold_left (fun text page => text +++ page +++ nl) pages acc <> EmptyString.
Proof.
  revert acc; induction pages as [|page pages IH]; intros acc Hacc; simpl.
  - exact Hacc.
  - apply IH. destruct acc; [congruence | discriminate].
Qed.

(** X8.  The text extracted from a PDF that has a page is never empty: every page
    adds a newline, also a page without text.  For such a file the test
    [if not text] cannot hold. *)
Lemma pdf_text_never_empty (file_path page : string) (pages : list string) :
  pdf_page_texts file_path = Ok (page :: pages) ->
  exists text, _extract_from_pdf file_path = Ok text /\ text <> EmptyString.
Proof.
  intro Hpages; unfold _extract_from_pdf; rewrite Hpages.
  eexists; split; [reflexivity|].
  cbn [fold_left]. apply fold_pages_nonempty.
  cbn [String.append]. destruct page; discriminate.
Qed.

Lemma CHUNK_SIZE_pos : 0 < CHUNK_SIZE.
Proof. apply Nat.ltb_lt; vm_compute; reflexivity. Qed.

(** With an empty extracted text no call is made. *)
Lemma summarize_empty_text (C : nat) (file_path : string) (self : GemmaAssistant)
    (w : World) :
  extract_text_from_document file_path = EmptyString ->
  summarize_document_with C file_path (self, w) = (Ok extraction_error, (self, w)).
Proof. intro HT; unfold summarize_document_with; rewrite HT; reflexivity. Qed.

(** C8.  What [summarize_document] does with a text that is empty only
    after trimming: the test [if not text] does not trim, so every non-empty
    extracted text, a whitespace-only one included, is sent to the model;
    at least one model call is made. *)
Theorem summarize_blank_text_calls_model (file_path : string)
    (self : GemmaAssistant) (w : World) :
  let T := extract_text_from_document file_path in
  T <> EmptyString -> strip T = EmptyString ->
  exists r self' w' new,
    summarize_document file_path (self, w) = (r, (self', w')) /\
    invocations w' = invocations w ++ new /\
    new <> [].
Proof.
  intros T HT _.
  unfold summarize_document, summarize_document_with; fold T.
  rewrite (truthy_nonempty T HT); cbn [negb].
  destruct (Nat.ltb_spec CHUNK_SIZE (String.length T)) as [Hlong|Hshort].
  - destruct (split_chunks_eval CHUNK_SIZE T) as (chunks & Hsplit & Hcount);
      [exact CHUNK_SIZE_pos | lia |].
    rewrite Hsplit. unfold bind at 1, of_result at 1. unfold bind at 1.
    destruct (summarize_loop_calls (List.length chunks) (enumerate chunks) self w)
      as (r1 & self1 & w1 & new1 & Hrun & Hinv & Hne).
    rewrite Hrun.
    assert (Hnew1 : new1 <> []).
    { apply Hne; intro Hnil.
      pose proof (length_enumerate chunks) as Hl; rewrite Hnil, Hcount in Hl.
      rewrite chunk_count_eq in Hl by (try exact CHUNK_SIZE_pos; lia).
      simpl in Hl; lia. }
    destruct r1 as [summaries|e].
    + unfold bind at 1. rewrite process_text_run. cbv zeta.
      match goal with |- context [generate ?c] =>
        set (contents := c); destruct (generate contents) as [reply|e] end.
      * eexists _, _, _, (new1 ++ [contents]); split; [reflexivity|]; split.
        -- simpl; rewrite Hinv, <- app_assoc; reflexivity.
        -- destruct new1; [congruence | discriminate].
      * eexists _, _, _, (new1 ++ [contents]); split; [reflexivity|]; split.
        -- simpl; rewrite Hinv, <- app_assoc; reflexivity.
        -- destruct new1; [congruence | discriminate].
    + eexists _, _, _, new1; split; [reflexivity|]; split; assumption.
  - rewrite process_text_run; cbv zeta.
    match goal with |- context [generate ?c] =>
      set (contents := c); destruct (generate contents) as [reply|e] end;
      eexists _, _, _, [contents]; (split; [reflexivity|]); split;
      try reflexivity; discriminate.
Qed.

(** X7.  The sibling path [analyze_image_document] does trim: an extracted text
    that is blank after [strip()] is not sent to the model, and the only call
    made is the visual analysis. *)
Lemma analyze_image_document_skips_blank_text (file_path : string)
    (self : GemmaAssistant) (w : World) (image : Image) (visual T : string) :
  use_multimodal self = true ->
  Image_open file_path = Ok image ->
  generate (chat_sampler self ++ [user_message "Analyze this document visually:" [image]])
    = Ok visual ->
  image_to_string image = Ok T ->
  strip T = EmptyString ->
  exists self',
    analyze_image_document file_path true (self, w)
    = (Ok (analysis_visual visual "No text extracted or text extraction not requested."),
       (self', record_invocation
                 (chat_sampler self ++
                  [user_message "Analyze this document visually:" [image]]) w)).
Proof.
  intros Hmm Hopen Hgen Hocr Hblank.
  unfold analyze_image_document, process_image, chat_sampler_send_message,
    session_send, _extract_from_image.
  py_run. rewrite Hmm; cbn [negb]. rewrite Hopen.
  py_run. rewrite Hmm; cbn [negb].
  py_run. rewrite Hgen.
  py_run. rewrite Hocr, Hblank; cbn [truthy].
  eexists; reflexivity.
Qed.

End Summarizer.

(** The example of the specification: fifteen characters, chunk size ten,
    three model calls. *)
Lemma summarize_call_count_witness :
  exists reply self' w',
    @AiAssistant.summarize_document_with (stub (Some "summary") "abcdefghijklmno")
      10 "notes.txt" (AiAssistant.mk_assistant false [], empty_world)
    = (Ok reply, (self', w')) /\
    List.length (invocations w') = 3.
Proof.
  destruct (@summarize_call_count (stub (Some "summary") "abcdefghijklmno")
              (fun _ => ex_intro _ "summary" eq_refl) 10 "notes.txt"
              (AiAssistant.mk_assistant false []) empty_world)
    as (reply & self' & w' & new & Hrun & Hinv & Hlen & _).
  - simpl; discriminate.
  - lia.
  - exists reply, self', w'; split; [exact Hrun|].
    rewrite Hinv, length_app, Hlen; reflexivity.
Defined.

Example summarize_15_10_prompts :
  map sent_prompt
    (invocations (snd (snd
      (@AiAssistant.summarize_document_with (stub (Some "summary") "abcdefghijklmno")
         10 "notes.txt" (AiAssistant.mk_assistant false [], empty_world)))))
  = [AiAssistant.chunk_prompt 0 2 +++ nl +++ nl +++ "abcdefghij";
     AiAssistant.chunk_prompt 1 2 +++ nl +++ nl +++ "klmno";
     AiAssistant.combine_prompt +++ nl +++ nl +++ "summary" +++ nl +++ nl +++ "summary"].
Proof. vm_compute; reflexivity. Qed.

(** No handler surrounds the calls of the summarizer: when the model fails
    on a chunk, the exception leaves [summarize_document] and the remaining
    calls are not made. *)
Example summarize_model_failure_propagates :
  @AiAssistant.summarize_document_with (stub None "abcdefghijklmno")
    10 "notes.txt" (AiAssistant.mk_assistant false [], empty_world)
  = (Raise (mk_exn Exception "model unavailable"),
     (AiAssistant.mk_assistant false [],
      mk_world [[user_message (AiAssistant.chunk_prompt 0 2 +++ nl +++ nl +++ "abcdefghij") []]]
               ["Processing chunk 1/2..."])).
Proof. vm_compute; reflexivity. Qed.

(** A text file of three spaces: the text is blank after trimming, and the
    model is called. *)
Lemma summarize_blank_text_calls_model_witness :
  exists r self' w' new,
    @AiAssistant.summarize_document (stub (Some "summary") "   ") "blank.txt"
      (AiAssistant.mk_assistant false [], empty_world) = (r, (self', w')) /\
    invocations w' = invocations empty_world ++ new /\
    new <> [].
Proof.
  apply (@summarize_blank_text_calls_model (stub (Some "summary") "   ") "blank.txt").
  - simpl; discriminate.
  - reflexivity.
Defined.

Example summarize_three_spaces :
  @AiAssistant.summarize_document (stub (Some "summary") "   ") "blank.txt"
    (AiAssistant.mk_assistant false [], empty_world)
  = (Ok "summary",
     (AiAssistant.mk_assistant false
        [user_message ("Please summarize this document:" +++ nl +++ nl +++ "   ") [];
         assistant_message "summary"],
      mk_world [[user_message ("Please summarize this document:" +++ nl +++ nl +++ "   ") []]]
               [])).
Proof. vm_compute; reflexivity. Qed.

(* ================================================================= *)
(** * Capability gating *)

Section Capability.
Context {E : External}.

(** A text-only [GemmaClient] takes the text branch whatever image data
    comes with the message. *)
Lemma text_only_client_ignores_image (name : string) (history : list Message)
    (w : World) (message : string) (image_data : option string) :
  GemmaWebApp.send_message message image_data (GemmaWebApp.mk_client false name history, w)
  = GemmaWebApp.send_message message None (GemmaWebApp.mk_client false name history, w).
Proof.
  unfold GemmaWebApp.send_message; py_run; cbn [GemmaWebApp.use_vision].
  rewrite andb_false_r; reflexivity.
Qed.

(** C5, as the code has it.  A text-only [GemmaAssistant] rejects an image
    in [chat] and in [process_image]: the capability error is returned and
    the state, the record of model calls included, is unchanged.  A
    text-only [GemmaClient] of the web application does not reject: it
    ignores the image data and sends the text alone through its chat session,
    which is exactly one model call, with no image in it. *)
Theorem capability_gating :
  (forall history w message image,
     AiAssistant.chat message (Some image) (AiAssistant.mk_assistant false history, w)
     = (Ok AiAssistant.capability_error, (AiAssistant.mk_assistant false history, w)) /\
     rejected_without_call
       (AiAssistant.chat message (Some image)
          (AiAssistant.mk_assistant false history, w)) w) /\
  (forall history w image prompt,
     AiAssistant.process_image image prompt (AiAssistant.mk_assistant false history, w)
     = (Ok AiAssistant.capability_error, (AiAssistant.mk_assistant false history, w))) /\
  (forall name history w message image_data,
     exists reply c',
       GemmaWebApp.send_message message (Some image_data)
         (GemmaWebApp.mk_client false name history, w)
       = (Ok reply, (c', record_invocation (history ++ [user_message message []]) w))).
Proof.
  split; [|split].
  - intros history w message image.
    assert (Hrun : AiAssistant.chat message (Some image)
                     (AiAssistant.mk_assistant false history, w)
                   = (Ok AiAssistant.capability_error,
                      (AiAssistant.mk_assistant false history, w))) by reflexivity.
    split; [exact Hrun|].
    rewrite Hrun; split; [|reflexivity].
    exists AiAssistant.capability_error; split; reflexivity.
  - reflexivity.
  - intros name history w message image_data.
    rewrite text_only_client_ignores_image.
    unfold GemmaWebApp.send_message, session_send; py_run.
    cbn [GemmaWebApp.use_vision GemmaWebApp.chat_session truthy_opt andb].
    destruct (generate _) as [reply|e]; eexists _, _; reflexivity.
Qed.

End Capability.

(** A text-only client of the web application, given an image: the model is
    called and its reply is returned. *)
Lemma text_only_client_image_not_rejected :
  ~ rejected_without_call
      (@GemmaWebApp.send_message (stub (Some "A cat.") EmptyString)
         "What is in this picture?" (Some "aGVsbG8=")
         (GemmaWebApp.GemmaClient__init__ false, empty_world))
      empty_world.
Proof.
  intros [_ Hcalls]; vm_compute in Hcalls; discriminate Hcalls.
Qed.

Example text_only_client_image_run :
  @GemmaWebApp.send_message (stub (Some "A cat.") EmptyString)
    "What is in this picture?" (Some "aGVsbG8=")
    (GemmaWebApp.GemmaClient__init__ false, empty_world)
  = (Ok "A cat.",
     (GemmaWebApp.mk_client false "gemma-3-8b-it"
        [user_message "What is in this picture?" []; assistant_message "A cat."],
      mk_world [[user_message "What is in this picture?" []]] [])).
Proof. vm_compute; reflexivity. Qed.

(* ================================================================= *)
(** * Sessions: reset and priming *)

Section Reset.
Context {E : External}.
Import TopicExpert.

(** The hidden send: it never raises; a failure is printed and the history
    stays as it was. *)
Lemma send_system_prompt_run (system_prompt : string) (self : TopicExpert) (w : World) :
  _send_system_prompt system_prompt (self, w) =
  let contents := chat self ++ [primer (topic self)] in
  match generate contents with
  | Ok reply =>
      (Ok tt, (set_chat (contents ++ [assistant_message reply]) self,
               record_invocation contents w))
  | Raise e =>
      (Ok tt, (set_chat (chat self) self,
               print_line ("Error setting up expert role: " +++ str e)
                          (record_invocation contents w)))
  end.
Proof.
  unfold _send_system_prompt, chat_send_message, session_send, print, primer; py_run.
  destruct (generate _); reflexivity.
Qed.

Lemma reset_run (self : TopicExpert) (w : World) :
  exists w',
    reset (self, w) = (Ok tt, (set_chat (primed_history (topic self)) self, w')) /\
    invocations w' = invocations w ++ [[primer (topic self)]].
Proof.
  unfold reset. unfold bind at 1, modify at 1. unfold bind at 1, get at 1.
  rewrite send_system_prompt_run. cbv zeta.
  unfold primed_history, start_chat, set_chat; cbn [chat topic context model_name fst app].
  destruct (generate _); eexists; split; reflexivity.
Qed.

Lemma init_run (topic : string) (context : option string) (model_name : string)
    (w : World) :
  exists w',
    __init__ topic context model_name w
    = (Ok (mk_expert topic context model_name (primed_history topic)), w') /\
    invocations w' = invocations w ++ [[primer topic]].
Proof.
  unfold __init__, construct. rewrite send_system_prompt_run. cbv zeta.
  unfold primed_history, start_chat, set_chat;
    cbn [chat TopicExpert.topic TopicExpert.context TopicExpert.model_name app].
  destruct (generate _); eexists; split; reflexivity.
Qed.

(** C6.  After a reset no earlier turn remains.  For a topic expert, whatever
    its history was, the history after [reset] is the one of a session in
    which only the priming message has been replayed (that message and the
    reply to it, or nothing when the replay failed), the same as after
    creation; its only user message is the priming message.  The sessions
    without priming ([GemmaAPI], [GemmaClient], [GemmaAssistant]) have an
    empty history after their reset. *)
Theorem reset_clears_history :
  (forall self w,
     exists w',
       reset (self, w) = (Ok tt, (set_chat (primed_history (topic self)) self, w')) /\
     exists w0',
       __init__ (topic self) (context self) (model_name self) w
       = (Ok (set_chat (primed_history (topic self)) self), w0')) /\
  (forall topic m,
     In m (primed_history topic) -> role m = user -> m = primer topic) /\
  (forall api w,
     GemmaApi.reset_chat (api, w)
     = (Ok tt, (GemmaApi.mk_api (GemmaApi.model_name api) [], w))) /\
  (forall c w,
     GemmaWebApp.reset (c, w)
     = (Ok tt, (GemmaWebApp.mk_client (GemmaWebApp.use_vision c)
                  (GemmaWebApp.model_name c) [], w))) /\
  (forall a w,
     AiAssistant.reset_conversation (a, w)
     = (Ok tt, (AiAssistant.mk_assistant (AiAssistant.use_multimodal a) [],
                print_line "Conversation history has been reset." w))).
Proof.
  split; [|split; [|split; [|split]]].
  - intros self w.
    destruct (reset_run self w) as (w' & Hreset & _).
    destruct (init_run (topic self) (context self) (model_name self) w)
      as (w0' & Hinit & _).
    exists w'; split; [exact Hreset|].
    exists w0'; exact Hinit.
  - intros topic m; unfold primed_history.
    destruct (generate _) as [reply|e]; simpl.
    + intros [<-|[<-|[]]]; [reflexivity | discriminate].
    + intros [].
  - reflexivity.
  - reflexivity.
  - reflexivity.
Qed.

(** C9.  When the hidden priming send fails, creation and reset of a topic
    expert still complete without raising: the failure is printed and
    swallowed, the session exists with an empty history, and the next
    question reaches the model with no priming message before it. *)
Theorem priming_failure_swallowed (topic : string) (context : option string)
    (model_name : string) (w : World) (e : exn) :
  generate [primer topic] = Raise e ->
  let w' := print_line ("Error setting up expert role: " +++ str e)
                       (record_invocation [primer topic] w) in
  __init__ topic context model_name w
    = (Ok (mk_expert topic context model_name []), w') /\
  (forall history,
     reset (mk_expert topic context model_name history, w)
     = (Ok tt, (mk_expert topic context model_name [], w'))) /\
  (forall question,
     exists answer self',
       ask question (mk_expert topic context model_name [], w')
       = (Ok answer, (self', record_invocation [user_message question []] w'))).
Proof.
  intros Hfail w'.
  split; [|split].
  - unfold __init__, construct. rewrite send_system_prompt_run. cbv zeta.
    unfold start_chat; cbn [chat TopicExpert.topic]. rewrite !app_nil_l, Hfail.
    reflexivity.
  - intros history.
    unfold reset. unfold bind at 1, modify at 1. unfold bind at 1, get at 1.
    rewrite send_system_prompt_run. cbv zeta.
    unfold start_chat, set_chat; cbn [chat TopicExpert.topic fst]. rewrite !app_nil_l, Hfail.
    reflexivity.
  - intros question.
    unfold ask, chat_send_message, session_send; py_run.
    cbn [chat]; rewrite !app_nil_l.
    destruct (generate [user_message question []]) as [reply|e'];
      eexists _, _; reflexivity.
Qed.

End Reset.

(** A model that is unavailable when the expert is created. *)
Lemma priming_failure_swallowed_witness :
  let E := stub None EmptyString in
  let w' := mk_world [[primer "astronomy"]]
                     ["Error setting up expert role: model unavailable"] in
  @TopicExpert.__init__ E "astronomy" None "gemma-3-8b-it" empty_world
    = (Ok (TopicExpert.mk_expert "astronomy" None "gemma-3-8b-it" []), w') /\
  (forall history,
     @TopicExpert.reset E
       (TopicExpert.mk_expert "astronomy" None "gemma-3-8b-it" history, empty_world)
     = (Ok tt, (TopicExpert.mk_expert "astronomy" None "gemma-3-8b-it" [], w'))) /\
  (forall question,
     exists answer self',
       @TopicExpert.ask E question
         (TopicExpert.mk_expert "astronomy" None "gemma-3-8b-it" [], w')
       = (Ok answer, (self', record_invocation [user_message question []] w'))).
Proof.
  exact (@priming_failure_swallowed (stub None EmptyString) "astronomy" None
           "gemma-3-8b-it" empty_world (mk_exn Exception "model unavailable") eq_refl).
Defined.

Example reset_drops_earlier_turns :
  let E := stub (Some "Understood.") EmptyString in
  @TopicExpert.reset E
    (TopicExpert.mk_expert "astronomy" None "gemma-3-8b-it"
       [primer "astronomy"; assistant_message "Understood.";
        user_message "How far is the Moon?" []; assistant_message "Understood."],
     empty_world)
  = (Ok tt,
     (TopicExpert.mk_expert "astronomy" None "gemma-3-8b-it"
        [primer "astronomy"; assistant_message "Understood."],
      mk_world [[primer "astronomy"]] [])).
Proof. vm_compute; reflexivity. Qed.

(* ================================================================= *)
(** * The dispatcher: polling *)

Section Polling.
Context {E : External}.

Lemma entry_eta (e : Entry) : mk_entry (conversation_id e) (response e) (error e) = e.
Proof. destruct e; reflexivity. Qed.

Lemma web_app_poll_empty (g : GemmaWebApp.App) :
  GemmaWebApp.response_queue g = [] ->
  GemmaWebApp.check_status g = (Ok processing, g).
Proof.
  intro Hq; unfold GemmaWebApp.check_status, Queue.get_nowait; py_run.
  rewrite Hq; cbn [is_Empty exn_cls].
  destruct g; simpl in Hq; subst; reflexivity.
Qed.

Lemma web_app_poll_oldest (g : GemmaWebApp.App) (e : Entry) (q : list Entry) :
  GemmaWebApp.response_queue g = e :: q ->
  GemmaWebApp.check_status g
  = (Ok (ready (conversation_id e) (response e) (error e)),
     GemmaWebApp.set_response_queue q g).
Proof.
  intro Hq; unfold GemmaWebApp.check_status, Queue.get_nowait; py_run.
  rewrite Hq; reflexivity.
Qed.

Lemma interface_poll_empty (g : WebInterface.App) :
  WebInterface.response_queue g = [] ->
  WebInterface.check_status g = (Ok processing, g).
Proof.
  intro Hq; unfold WebInterface.check_status, Queue.get_nowait; py_run.
  rewrite Hq; cbn [is_Empty exn_cls].
  destruct g; simpl in Hq; subst; reflexivity.
Qed.

Lemma interface_poll_oldest (g : WebInterface.App) (e : Entry) (q : list Entry) :
  WebInterface.response_queue g = e :: q ->
  WebInterface.check_status g
  = (Ok (ready (conversation_id e) (response e) (error e)),
     WebInterface.set_response_queue q g).
Proof.
  intro Hq; unfold WebInterface.check_status, Queue.get_nowait; py_run.
  rewrite Hq; reflexivity.
Qed.

(** Nothing is lost and nothing is duplicated: what was delivered, followed
    by what is still stored, is what was stored at the start followed by
    what was published, in that order. *)
Lemma web_app_conservation (evs : list event) :
  forall g,
    delivered (fst (run_events GemmaWebApp.response_queue_put
                               GemmaWebApp.check_status evs g))
    ++ GemmaWebApp.response_queue
         (snd (run_events GemmaWebApp.response_queue_put
                          GemmaWebApp.check_status evs g))
    = GemmaWebApp.response_queue g ++ completions evs.
Proof.
  induction evs as [|[entry|] evs IH]; intros g; cbn [run_events completions].
  - simpl; rewrite app_nil_r; reflexivity.
  - rewrite IH; unfold GemmaWebApp.response_queue_put, modify, Queue.put; simpl.
    rewrite <- app_assoc; reflexivity.
  - destruct (GemmaWebApp.response_queue g) as [|e q] eqn:Hq.
    + rewrite (web_app_poll_empty g Hq).
      destruct (run_events _ _ evs g) as [answers g''] eqn:Hrun.
      specialize (IH g); rewrite Hrun in IH; simpl in *.
      rewrite IH, Hq; reflexivity.
    + rewrite (web_app_poll_oldest g e q Hq).
      destruct (run_events _ _ evs _) as [answers g''] eqn:Hrun.
      specialize (IH (GemmaWebApp.set_response_queue q g)); rewrite Hrun in IH.
      simpl in *; rewrite IH, entry_eta; reflexivity.
Qed.

Lemma interface_conservation (evs : list event) :
  forall g,
    delivered (fst (run_events WebInterface.response_queue_put
                               WebInterface.check_status evs g))
    ++ WebInterface.response_queue
         (snd (run_events WebInterface.response_queue_put
                          WebInterface.check_status evs g))
    = WebInterface.response_queue g ++ completions evs.
Proof.
  induction evs as [|[entry|] evs IH]; intros g; cbn [run_events completions].
  - simpl; rewrite app_nil_r; reflexivity.
  - rewrite IH; unfold WebInterface.response_queue_put, modify, Queue.put; simpl.
    rewrite <- app_assoc; reflexivity.
  - destruct (WebInterface.response_queue g) as [|e q] eqn:Hq.
    + rewrite (interface_poll_empty g Hq).
      destruct (run_events _ _ evs g) as [answers g''] eqn:Hrun.
      specialize (IH g); rewrite Hrun in IH; simpl in *.
      rewrite IH, Hq; reflexivity.
    + rewrite (interface_poll_oldest g e q Hq).
      destruct (run_events _ _ evs _) as [answers g''] eqn:Hrun.
      specialize (IH (WebInterface.set_response_queue q g)); rewrite Hrun in IH.
      simpl in *; rewrite IH, entry_eta; reflexivity.
Qed.

End Polling.

(* ================================================================= *)
(** * The dispatcher: workers *)

Section Workers.
Context {E : External}.

(** A [try] whose handler returns, returns. *)
Lemma try_except_returns {S A} (body : M S A) (handler : exn -> M S A) (s : S) :
  (forall e s', exists a s'', handler e s' = (Ok a, s'')) ->
  exists a s'', try_except body handler s = (Ok a, s'').
Proof.
  intro Hh; unfold try_except.
  destruct (body s) as [[a|e] s']; [eexists _, _; reflexivity | apply Hh].
Qed.




Lemma web_app_text_worker (prompt cid : string) (g : GemmaWebApp.App) :
  GemmaWebApp.process_text_query prompt cid g =
  match GemmaWebApp.text_client g with
  | None =>
      (Ok tt, GemmaWebApp.set_response_queue
                (GemmaWebApp.response_queue g ++
                 [mk_entry cid
                    (Some "Error: Gemma client not initialized. Please check your API key.")
                    (Some "Client not initialized")]) g)
  | Some c =>
      match GemmaWebApp.send_message prompt None (c, GemmaWebApp.world g) with
      | (Ok r, (c', w')) =>
          (Ok tt, GemmaWebApp.set_response_queue
                    (GemmaWebApp.response_queue g ++ [mk_entry cid (Some r) None])
                    (GemmaWebApp.set_world w'
                       (GemmaWebApp.set_text_client (Some c') g)))
      | (Raise x, (c', w')) =>
          (Ok tt, GemmaWebApp.set_response_queue
                    (GemmaWebApp.response_queue g ++ [mk_entry cid None (Some (str x))])
                    (GemmaWebApp.set_world w'
                       (GemmaWebApp.set_text_client (Some c') g)))
      end
  end.
Proof.
  unfold GemmaWebApp.process_text_query, GemmaWebApp.response_queue_put,
    GemmaWebApp.on_text_client, Queue.put; py_run.
  destruct (GemmaWebApp.text_client g) as [c|]; [|reflexivity].
  py_run.
  destruct (GemmaWebApp.send_message prompt None (c, GemmaWebApp.world g))
    as [[r|x] [c' w']]; reflexivity.
Qed.

Lemma web_app_image_worker (prompt image_data cid : string) (g : GemmaWebApp.App) :
  GemmaWebApp.process_image_query prompt image_data cid g =
  match GemmaWebApp.vision_client g with
  | None =>
      (Ok tt, GemmaWebApp.set_response_queue
                (GemmaWebApp.response_queue g ++
                 [mk_entry cid
                    (Some "Error: Gemma vision client not initialized. Please check your API key.")
                    (Some "Client not initialized")]) g)
  | Some c =>
      match GemmaWebApp.send_message prompt (Some image_data) (c, GemmaWebApp.world g) with
      | (Ok r, (c', w')) =>
          (Ok tt, GemmaWebApp.set_response_queue
                    (GemmaWebApp.response_queue g ++ [mk_entry cid (Some r) None])
                    (GemmaWebApp.set_world w'
                       (GemmaWebApp.set_vision_client (Some c') g)))
      | (Raise x, (c', w')) =>
          (Ok tt, GemmaWebApp.set_response_queue
                    (GemmaWebApp.response_queue g ++ [mk_entry cid None (Some (str x))])
                    (GemmaWebApp.set_world w'
                       (GemmaWebApp.set_vision_client (Some c') g)))
      end
  end.
Proof.
  unfold GemmaWebApp.process_image_query, GemmaWebApp.response_queue_put,
    GemmaWebApp.on_vision_client, Queue.put; py_run.
  destruct (GemmaWebApp.vision_client g) as [c|]; [|reflexivity].
  py_run.
  destruct (GemmaWebApp.send_message prompt (Some image_data) (c, GemmaWebApp.world g))
    as [[r|x] [c' w']]; reflexivity.
Qed.

(** Every job of the web application ends normally and publishes exactly one
    entry, tagged with the job's conversation. *)
Lemma web_app_job_publishes (j : Job) (g : GemmaWebApp.App) :
  exists e g',
    GemmaWebApp.run_job j g = (Ok tt, g') /\
    GemmaWebApp.response_queue g' = GemmaWebApp.response_queue g ++ [e] /\
    conversation_id e = job_conversation j.
Proof.
  destruct j as [prompt cid|prompt image_data cid]; cbn [GemmaWebApp.run_job].
  - rewrite web_app_text_worker.
    destruct (GemmaWebApp.text_client g) as [c|].
    + destruct (GemmaWebApp.send_message prompt None (c, GemmaWebApp.world g))
        as [[r|x] [c' w']]; eexists _, _; repeat split; reflexivity.
    + eexists _, _; repeat split; reflexivity.
  - rewrite web_app_image_worker.
    destruct (GemmaWebApp.vision_client g) as [c|].
    + destruct (GemmaWebApp.send_message prompt (Some image_data)
                  (c, GemmaWebApp.world g))
        as [[r|x] [c' w']]; eexists _, _; repeat split; reflexivity.
    + eexists _, _; repeat split; reflexivity.
Qed.

(** The workers of [web_interface.py]: the outcome of the handler, a reply
    or an exception of any kind, is published as one entry. *)
Lemma interface_text_worker (prompt cid : string) (g : WebInterface.App) :
  WebInterface.process_text_query prompt cid g =
  let (outcome, g') := WebInterface.chat_sampler_send_message prompt g in
  (Ok tt, WebInterface.set_response_queue
            (WebInterface.response_queue g' ++ [entry_of cid outcome]) g').
Proof.
  unfold WebInterface.process_text_query, WebInterface.response_queue_put, Queue.put.
  unfold try_except, bind at 1.
  destruct (WebInterface.chat_sampler_send_message prompt g) as [[r|x] g'];
    reflexivity.
Qed.

Lemma interface_image_worker (prompt image_data cid : string) (g : WebInterface.App) :
  WebInterface.process_image_query prompt image_data cid g =
  let (outcome, g') := image_handler prompt image_data g in
  (Ok tt, WebInterface.set_response_queue
            (WebInterface.response_queue g' ++ [entry_of cid outcome]) g').
Proof.
  unfold WebInterface.process_image_query, image_handler,
    WebInterface.response_queue_put, Queue.put, index.
  destruct (nth_error (split "," image_data) 1) as [payload|]; [|reflexivity].
  py_run.
  destruct (b64decode payload) as [image_bytes|x]; [|reflexivity].
  destruct (Image_open_bytes image_bytes) as [image|x]; [|reflexivity].
  destruct (WebInterface.vision_chat_sampler_send_message prompt [image] g)
    as [[r|x] g']; reflexivity.
Qed.

Lemma interface_job_publishes (j : Job) (g : WebInterface.App) :
  exists e g',
    WebInterface.run_job j g = (Ok tt, g') /\
    WebInterface.response_queue g' = WebInterface.response_queue g ++ [e] /\
    conversation_id e = job_conversation j.
Proof.
  destruct j as [prompt cid|prompt image_data cid]; cbn [WebInterface.run_job].
  - rewrite interface_text_worker.
    destruct (WebInterface.chat_sampler_send_message prompt g) as [outcome g'] eqn:Hrun.
    eexists _, _; split; [reflexivity|]; split.
    + cbn. f_equal.
      unfold WebInterface.chat_sampler_send_message, session_send in Hrun.
      revert Hrun; py_run.
      destruct (WebInterface.chat_sampler g); [destruct (generate _)|];
        intro Hrun; inversion Hrun; reflexivity.
    + destruct outcome; reflexivity.
  - rewrite interface_image_worker.
    destruct (image_handler prompt image_data g) as [outcome g'] eqn:Hrun.
    eexists _, _; split; [reflexivity|]; split.
    + cbn. f_equal.
      unfold image_handler, WebInterface.vision_chat_sampler_send_message,
        session_send, index in Hrun.
      revert Hrun.
      destruct (nth_error (split "," image_data) 1) as [payload|]; py_run;
        [|intro Hrun; inversion Hrun; reflexivity].
      destruct (b64decode payload) as [image_bytes|x];
        [|intro Hrun; inversion Hrun; reflexivity].
      destruct (Image_open_bytes image_bytes) as [image|x];
        [|intro Hrun; inversion Hrun; reflexivity].
      destruct (WebInterface.vision_chat_sampler g); [destruct (generate _)|];
        intro Hrun; inversion Hrun; reflexivity.
    + destruct outcome; reflexivity.
Qed.

End Workers.

(* ================================================================= *)
(** * The dispatcher: the claims *)

Section Dispatcher.
Context {E : External}.

(** C3.  Polling returns at once and does not look at conversations.  In both
    front ends: on an empty result store [check_status] answers [processing]
    and changes nothing; otherwise it removes the oldest entry and answers
    with it, whatever its conversation; over any sequence of completions and
    polls the entries delivered, followed by those still stored, are the
    entries published, in order, so none is delivered twice; and when the job of
    conversation B completes before the job of conversation A, the first
    poll answers with B's entry. *)
Theorem poll_is_fifo_and_conversation_agnostic :
  (forall k t v th w,
     GemmaWebApp.check_status (GemmaWebApp.mk_app k t v [] th w)
     = (Ok processing, GemmaWebApp.mk_app k t v [] th w)) /\
  (forall c v th w,
     WebInterface.check_status (WebInterface.mk_app c v [] th w)
     = (Ok processing, WebInterface.mk_app c v [] th w)) /\
  (forall k t v e q th w,
     GemmaWebApp.check_status (GemmaWebApp.mk_app k t v (e :: q) th w)
     = (Ok (ready (conversation_id e) (response e) (error e)),
        GemmaWebApp.mk_app k t v q th w)) /\
  (forall c v e q th w,
     WebInterface.check_status (WebInterface.mk_app c v (e :: q) th w)
     = (Ok (ready (conversation_id e) (response e) (error e)),
        WebInterface.mk_app c v q th w)) /\
  (forall evs g,
     delivered (fst (run_events GemmaWebApp.response_queue_put
                                GemmaWebApp.check_status evs g))
     ++ GemmaWebApp.response_queue
          (snd (run_events GemmaWebApp.response_queue_put
                           GemmaWebApp.check_status evs g))
     = GemmaWebApp.response_queue g ++ completions evs) /\
  (forall evs g,
     delivered (fst (run_events WebInterface.response_queue_put
                                WebInterface.check_status evs g))
     ++ WebInterface.response_queue
          (snd (run_events WebInterface.response_queue_put
                           WebInterface.check_status evs g))
     = WebInterface.response_queue g ++ completions evs) /\
  (forall jobA jobB k t v th w,
     exists resp err g',
       GemmaWebApp.check_status
         (snd (GemmaWebApp.run_job jobA
                 (snd (GemmaWebApp.run_job jobB (GemmaWebApp.mk_app k t v [] th w)))))
       = (Ok (ready (job_conversation jobB) resp err), g')) /\
  (forall jobA jobB c v th w,
     exists resp err g',
       WebInterface.check_status
         (snd (WebInterface.run_job jobA
                 (snd (WebInterface.run_job jobB (WebInterface.mk_app c v [] th w)))))
       = (Ok (ready (job_conversation jobB) resp err), g')).
Proof.
  repeat apply conj.
  - reflexivity.
  - reflexivity.
  - reflexivity.
  - reflexivity.
  - intros evs g; apply web_app_conservation.
  - intros evs g; apply interface_conservation.
  - intros jobA jobB k t v th w.
    destruct (web_app_job_publishes jobB (GemmaWebApp.mk_app k t v [] th w))
      as (eB & gB & HrunB & HqB & HcB).
    destruct (web_app_job_publishes jobA gB) as (eA & gA & HrunA & HqA & _).
    rewrite HrunB; cbn [snd]; rewrite HrunA; cbn [snd].
    rewrite HqB in HqA; cbn [GemmaWebApp.response_queue app] in HqA.
    rewrite (web_app_poll_oldest gA eB [eA] HqA), HcB.
    eexists _, _, _; reflexivity.
  - intros jobA jobB c v th w.
    destruct (interface_job_publishes jobB (WebInterface.mk_app c v [] th w))
      as (eB & gB & HrunB & HqB & HcB).
    destruct (interface_job_publishes jobA gB) as (eA & gA & HrunA & HqA & _).
    rewrite HrunB; cbn [snd]; rewrite HrunA; cbn [snd].
    rewrite HqB in HqA; cbn [WebInterface.response_queue app] in HqA.
    rewrite (interface_poll_oldest gA eB [eA] HqA), HcB.
    eexists _, _, _; reflexivity.
Qed.


(** C10.  A job that runs while its client is not initialised publishes an
    entry whose response field (an "Error: ..." message) and error field are
    both set, and the poll that takes it answers [ready] with both. *)
Theorem uninitialized_client_sets_both_fields :
  (forall prompt cid k v q th w,
     GemmaWebApp.process_text_query prompt cid (GemmaWebApp.mk_app k None v q th w)
     = (Ok tt,
        GemmaWebApp.mk_app k None v
          (q ++ [mk_entry cid
                   (Some "Error: Gemma client not initialized. Please check your API key.")
                   (Some "Client not initialized")]) th w)) /\
  (forall prompt image_data cid k t q th w,
     GemmaWebApp.process_image_query prompt image_data cid
       (GemmaWebApp.mk_app k t None q th w)
     = (Ok tt,
        GemmaWebApp.mk_app k t None
          (q ++ [mk_entry cid
                   (Some "Error: Gemma vision client not initialized. Please check your API key.")
                   (Some "Client not initialized")]) th w)) /\
  (forall prompt cid k v th w,
     GemmaWebApp.check_status
       (snd (GemmaWebApp.process_text_query prompt cid
               (GemmaWebApp.mk_app k None v [] th w)))
     = (Ok (ready cid
              (Some "Error: Gemma client not initialized. Please check your API key.")
              (Some "Client not initialized")),
        GemmaWebApp.mk_app k None v [] th w)) /\
  (forall prompt image_data cid k t th w,
     GemmaWebApp.check_status
       (snd (GemmaWebApp.process_image_query prompt image_data cid
               (GemmaWebApp.mk_app k t None [] th w)))
     = (Ok (ready cid
              (Some "Error: Gemma vision client not initialized. Please check your API key.")
              (Some "Client not initialized")),
        GemmaWebApp.mk_app k t None [] th w)).
Proof. repeat apply conj; reflexivity. Qed.

End Dispatcher.


Example failed_model_call_entry :
  GemmaWebApp.response_queue
    (snd (@GemmaWebApp.process_text_query (stub None EmptyString)
            "Hello" "conversation-1"
            (GemmaWebApp.mk_app (Some "key")
               (Some (GemmaWebApp.GemmaClient__init__ false))
               (Some (GemmaWebApp.GemmaClient__init__ true)) [] [] empty_world)))
  = [mk_entry "conversation-1" (Some "Error: model unavailable") None].
Proof. vm_compute; reflexivity. Qed.

Example interface_failed_model_call_entry :
  WebInterface.response_queue
    (snd (@WebInterface.process_text_query (stub None EmptyString)
            "Hello" "conversation-1"
            (WebInterface.mk_app (Some []) (Some []) [] [] empty_world)))
  = [mk_entry "conversation-1" None (Some "model unavailable")].
Proof. vm_compute; reflexivity. Qed.


(* ================================================================= *)
(** * Image payloads *)

Section ImagePayload.
Context {E : External}.

Lemma prefix_empty (s : string) : prefix EmptyString s = true.
Proof. destruct s; reflexivity. Qed.

Lemma split_without_separator (sep : ascii) (s : string) :
  has_char sep s = false -> split sep s = [s].
Proof.
  induction s as [|c s IH]; cbn [has_char split]; [reflexivity|].
  intro H; apply orb_false_iff in H; destruct H as [Hc Hs].
  rewrite Hc, (IH Hs); reflexivity.
Qed.

Lemma split_at_separator (sep : ascii) (a b : string) :
  has_char sep a = false ->
  split sep (a +++ String sep b) = a :: split sep b.
Proof.
  induction a as [|c a IH]; cbn [has_char split String.append].
  - intros _; rewrite Ascii.eqb_refl; reflexivity.
  - intro H; apply orb_false_iff in H; destruct H as [Hc Ha].
    rewrite Hc, (IH Ha); reflexivity.
Qed.

(** [GemmaClient.send_message] on a vision client: a payload without the
    data-URI prefix is decoded as it is, a payload with the prefix is decoded
    from what follows the comma, and a failure of the decoding or of the
    parsing is returned as an error string, without a model call. *)
Lemma client_strips_data_uri (message : string) (name : string)
    (history : list Message) (w : World) :
  let c := GemmaWebApp.mk_client true name history in
  (forall payload,
     truthy payload = true -> startswith payload "data:image" = false ->
     GemmaWebApp.send_message message (Some payload) (c, w)
     = send_decoded message payload c w) /\
  (forall header payload,
     has_char "," header = false -> has_char "," payload = false ->
     GemmaWebApp.send_message message
       (Some ("data:image" +++ header +++ String "," payload)) (c, w)
     = send_decoded message payload c w).
Proof.
  intro c; split.
  - intros payload Hne Hpre.
    unfold GemmaWebApp.send_message, send_decoded, decode_image, generate_content; py_run.
    cbn [truthy_opt GemmaWebApp.use_vision c]. rewrite Hne, Hpre; cbn [andb].
    destruct (b64decode payload) as [image_bytes|x]; [|reflexivity].
    destruct (Image_open_bytes image_bytes) as [image|x]; [|reflexivity].
    destruct (generate _); reflexivity.
  - intros header payload Hh Hp.
    unfold GemmaWebApp.send_message, send_decoded, decode_image, generate_content, index;
      py_run.
    change (split "," ("data:image" +++ header +++ String "," payload))
      with (split "," (("data:image" +++ header) +++ String "," payload)).
    rewrite split_at_separator by exact Hh.
    rewrite (split_without_separator _ _ Hp).
    cbn [truthy_opt GemmaWebApp.use_vision c truthy String.append andb nth_error].
    unfold startswith; cbn [prefix].
    repeat (destruct (ascii_dec _ _) as [_|Hneq]; [|exfalso; apply Hneq; reflexivity]).
    rewrite prefix_empty.
    destruct (b64decode payload) as [image_bytes|x]; [|reflexivity].
    destruct (Image_open_bytes image_bytes) as [image|x]; [|reflexivity].
    destruct (generate _); reflexivity.
Qed.

(** C7.  What [process_image_query] of [web_interface.py] does with a base64
    string that carries no data-URI prefix: it takes [split(',')[1]]
    unconditionally, so a payload without a comma is never decoded; the
    IndexError is caught and published as the error of the job, and neither
    the decoder nor the model is reached. *)
Theorem interface_requires_data_uri_prefix (prompt image_data cid : string)
    (g : WebInterface.App) :
  has_char "," image_data = false ->
  WebInterface.process_image_query prompt image_data cid g
  = (Ok tt,
     WebInterface.set_response_queue
       (WebInterface.response_queue g ++
        [mk_entry cid None (Some "list index out of range")]) g).
Proof.
  intro Hno.
  rewrite interface_image_worker; unfold image_handler, index.
  rewrite (split_without_separator _ _ Hno); reflexivity.
Qed.

End ImagePayload.

(** The base64 text of "hello", sent without a header. *)
Lemma interface_requires_data_uri_prefix_witness :
  @WebInterface.process_image_query (stub (Some "A cat.") EmptyString)
    "What is in this picture?" "aGVsbG8=" "conversation-1"
    (WebInterface.mk_app (Some []) (Some []) [] [] empty_world)
  = (Ok tt,
     WebInterface.mk_app (Some []) (Some []) 
       [mk_entry "conversation-1" None (Some "list index out of range")] []
       empty_world).
Proof.
  exact (@interface_requires_data_uri_prefix (stub (Some "A cat.") EmptyString)
           "What is in this picture?" "aGVsbG8=" "conversation-1"
           (WebInterface.mk_app (Some []) (Some []) [] [] empty_world) eq_refl).
Defined.

Example client_accepts_bare_base64 :
  @GemmaWebApp.send_message (stub (Some "A cat.") EmptyString)
    "What is in this picture?" (Some "aGVsbG8=")
    (GemmaWebApp.GemmaClient__init__ true, empty_world)
  = (Ok "A cat.",
     (GemmaWebApp.GemmaClient__init__ true,
      mk_world [[user_message "What is in this picture?" [PIL_Image "aGVsbG8="]]] [])).
Proof. vm_compute; reflexivity. Qed.

Example client_accepts_data_uri :
  @GemmaWebApp.send_message (stub (Some "A cat.") EmptyString)
    "What is in this picture?" (Some "data:image/png;base64,aGVsbG8=")
    (GemmaWebApp.GemmaClient__init__ true, empty_world)
  = (Ok "A cat.",
     (GemmaWebApp.GemmaClient__init__ true,
      mk_world [[user_message "What is in this picture?" [PIL_Image "aGVsbG8="]]] [])).
Proof. vm_compute; reflexivity. Qed.

Example interface_accepts_data_uri :
  WebInterface.response_queue
    (snd (@WebInterface.process_image_query (stub (Some "A cat.") EmptyString)
            "What is in this picture?" "data:image/png;base64,aGVsbG8=" "conversation-1"
            (WebInterface.mk_app (Some []) (Some []) [] [] empty_world)))
  = [mk_entry "conversation-1" (Some "A cat.") None].
Proof. vm_compute; reflexivity. Qed.

(** Conversation A submits first, conversation B second; B's thread runs
    first; the poll made for A receives B's entry, and the next one A's. *)
Example poll_returns_other_conversation :
  let E := stub (Some "Hi.") EmptyString in
  let g0 := WebInterface.mk_app (Some []) (Some []) [] [] empty_world in
  let g1 := snd (WebInterface.text_query "Question of A" "A" g0) in
  let g2 := snd (WebInterface.text_query "Question of B" "B" g1) in
  let g3 := snd (@WebInterface.run_thread E 1 g2) in
  let g4 := snd (@WebInterface.run_thread E 0 g3) in
  let (first, g5) := WebInterface.check_status g4 in
  let (second, g6) := WebInterface.check_status g5 in
  let (third, _) := WebInterface.check_status g6 in
  (first, second, third)
  = (Ok (ready "B" (Some "Hi.") None), Ok (ready "A" (Some "Hi.") None), Ok processing).
Proof. vm_compute; reflexivity. Qed.

(* ================================================================= *)
(** * More of ai_assistant.py *)

Section Assistant.
Context {E : External}.
Import AiAssistant.

(** X1.  No chunk is empty and none is longer than the chunk size, for
    every text, the empty one included (it has no chunk). *)
Theorem chunks_nonempty_and_bounded (C : nat) (T : string) (chunks : list string) :
  0 < C ->
  split_chunks C T = Ok chunks ->
  Forall (fun chunk => 0 < String.length chunk <= C) chunks.
Proof.
  intros HC; unfold split_chunks, range.
  destruct (Nat.eqb_spec C 0) as [|_]; [lia|].
  destruct (Nat.ltb_spec 0 (String.length T)) as [Hlen|Hlen].
  - intro Heq; injection Heq as <-.
    destruct (last_chunk_arith (String.length T) C HC Hlen) as (Hlo & _ & _).
    rewrite Nat.sub_0_r.
    set (q := (String.length T - 1) / C) in *.
    apply Forall_forall; intros chunk Hin.
    apply in_map_iff in Hin; destruct Hin as (i & <- & Hin).
    apply in_map_iff in Hin; destruct Hin as (k & <- & Hin).
    apply in_seq in Hin.
    rewrite slice_chunk, length_substring; simpl.
    assert (k * C <= q * C) by nia. lia.
  - intro Heq; injection Heq as <-; constructor.
Qed.

Lemma summarize_short_text (file_path : string) (self : GemmaAssistant) (w : World) :
  extract_text_from_document file_path <> EmptyString ->
  String.length (extract_text_from_document file_path) <= CHUNK_SIZE ->
  summarize_document file_path (self, w)
  = process_text (extract_text_from_document file_path)
      (Some "Please summarize this document:") (self, w).
Proof.
  intros Hne Hlen; unfold summarize_document, summarize_document_with.
  rewrite (truthy_nonempty _ Hne); cbn [negb].
  destruct (Nat.ltb_spec CHUNK_SIZE (String.length (extract_text_from_document file_path)));
    [lia | reflexivity].
Qed.

Lemma extract_by_extractor (file_path : string) :
  extract_text_from_document file_path =
  match extractor_for (splitext_lower file_path) with
  | Some extractor =>
      match extractor file_path with
      | Ok text => text
      | Raise e => "Error extracting text: " +++ str e
      end
  | None => "Unsupported file format: " +++ splitext_lower file_path
  end.
Proof.
  unfold extract_text_from_document, extractor_for.
  destruct (String.eqb _ ".pdf"); [reflexivity|].
  destruct (String.eqb _ ".docx"); [reflexivity|].
  destruct (String.eqb _ ".txt"); [reflexivity|].
  destruct (existsb _ _); reflexivity.
Qed.

(** X2.  A file whose text cannot be extracted (unsupported format, or a
    reader that fails) is not reported as an error by [summarize_document]:
    the failure message is taken for the document, and the model is asked to
    summarise it. *)
Theorem summarize_sends_extraction_failure_to_model (file_path message : string)
    (self : GemmaAssistant) (w : World) :
  extraction_failed file_path message ->
  String.length message <= CHUNK_SIZE ->
  exists r self',
    summarize_document file_path (self, w)
    = (r, (self',
           record_invocation
             (chat_sampler self ++
              [user_message ("Please summarize this document:" +++ nl +++ nl +++ message) []])
             w)).
Proof.
  intros Hfail Hlen.
  assert (Htext : extract_text_from_document file_path = message).
  { rewrite extract_by_extractor; unfold extraction_failed in Hfail.
    destruct (extractor_for _) as [extractor|]; [|symmetry; exact Hfail].
    destruct Hfail as (e & -> & ->); reflexivity. }
  assert (Hne : message <> EmptyString).
  { unfold extraction_failed in Hfail.
    destruct (extractor_for _); [destruct Hfail as (e & _ & ->)|subst message];
      discriminate. }
  rewrite summarize_short_text by (rewrite Htext; assumption).
  rewrite Htext, process_text_run; cbv zeta.
  destruct (generate _); eexists _, _; reflexivity.
Qed.

End Assistant.

Lemma chunks_nonempty_and_bounded_witness :
  Forall (fun chunk => 0 < String.length chunk <= 10) ["abcdefghij"; "klmno"].
Proof.
  apply (chunks_nonempty_and_bounded 10 "abcdefghijklmno"); [lia | reflexivity].
Defined.

(** A file of a format that has no extractor. *)
Lemma summarize_sends_extraction_failure_to_model_witness :
  let E := stub_io (Some "A summary.") ".xyz" (Ok EmptyString) (Ok (PIL_Image EmptyString)) in
  exists r self',
    @AiAssistant.summarize_document E "notes.xyz"
      (AiAssistant.mk_assistant false [], empty_world)
    = (r, (self',
           record_invocation
             [user_message ("Please summarize this document:" +++ nl +++ nl +++
                            "Unsupported file format: .xyz") []]
             empty_world)).
Proof.
  intro E.
  apply (@summarize_sends_extraction_failure_to_model E "notes.xyz"
           "Unsupported file format: .xyz" (AiAssistant.mk_assistant false [])
           empty_world).
  - reflexivity.
  - apply Nat.leb_le; vm_compute; reflexivity.
Defined.

Section AssistantSession.
Context {E : External}.
Import AiAssistant.

Lemma continues_refl (s : St) : continues s s.
Proof.
  repeat split; try (exists []; rewrite app_nil_r; reflexivity).
Qed.

Lemma continues_trans (s1 s2 s3 : St) :
  continues s1 s2 -> continues s2 s3 -> continues s1 s3.
Proof.
  intros (Hm1 & [t1 Ht1] & [c1 Hc1] & [l1 Hl1]) (Hm2 & [t2 Ht2] & [c2 Hc2] & [l2 Hl2]).
  split; [congruence|]. split; [|split].
  - exists (t1 ++ t2); rewrite Ht2, Ht1, app_assoc; reflexivity.
  - exists (c1 ++ c2); rewrite Hc2, Hc1, app_assoc; reflexivity.
  - exists (l1 ++ l2); rewrite Hl2, Hl1, app_assoc; reflexivity.
Qed.

Lemma append_only_ret {A} (a : A) : append_only (ret a).
Proof. intros s r s' H; inversion H; apply continues_refl. Qed.

Lemma append_only_raise {A} (e : exn) : append_only (@raise St A e).
Proof. intros s r s' H; inversion H; apply continues_refl. Qed.

Lemma append_only_of_result {A} (x : result A) : append_only (of_result x).
Proof. intros s r s' H; inversion H; apply continues_refl. Qed.

Lemma append_only_get : append_only (@get St).
Proof. intros s r s' H; inversion H; apply continues_refl. Qed.

Lemma append_only_bind {A B} (m : M St A) (k : A -> M St B) :
  append_only m -> (forall a, append_only (k a)) -> append_only (bind m k).
Proof.
  intros Hm Hk s r s' Hrun; unfold bind in Hrun.
  destruct (m s) as [[a|e] s1] eqn:Hms.
  - eapply continues_trans; [eapply Hm; exact Hms | eapply Hk; exact Hrun].
  - inversion Hrun; subst; eapply Hm; exact Hms.
Qed.

Lemma append_only_try_except {A} (body : M St A) (handler : exn -> M St A) :
  append_only body -> (forall e, append_only (handler e)) ->
  append_only (try_except body handler).
Proof.
  intros Hb Hh s r s' Hrun; unfold try_except in Hrun.
  destruct (body s) as [[a|e] s1] eqn:Hbs.
  - inversion Hrun; subst; eapply Hb; exact Hbs.
  - eapply continues_trans; [eapply Hb; exact Hbs | eapply Hh; exact Hrun].
Qed.

Lemma append_only_for_each {A B} (l : list A) (body : A -> M St B) :
  (forall x, append_only (body x)) -> append_only (for_each l body).
Proof.
  intro Hbody; induction l as [|x l IH]; cbn [for_each].
  - apply append_only_ret.
  - apply append_only_bind; [apply Hbody|]; intro y.
    apply append_only_bind; [exact IH|]; intro ys; apply append_only_ret.
Qed.

Lemma append_only_print (line : string) : append_only (print line).
Proof.
  intros [self w] r s' H; unfold print, modify in H; inversion H; subst.
  repeat split; try (exists []; rewrite app_nil_r; reflexivity).
  exists [line]; reflexivity.
Qed.

Lemma append_only_send (prompt : string) (imgs : list Image) :
  append_only (chat_sampler_send_message prompt imgs).
Proof.
  intros [self w] r s' H.
  unfold chat_sampler_send_message, zoom, session_send in H.
  destruct (generate _) as [reply|e]; inversion H; subst; cbn.
  - repeat split.
    + eexists; rewrite <- app_assoc; reflexivity.
    + eexists; reflexivity.
    + exists []; rewrite app_nil_r; reflexivity.
  - repeat split.
    + exists []; rewrite app_nil_r; reflexivity.
    + eexists; reflexivity.
    + exists []; rewrite app_nil_r; reflexivity.
Qed.

Ltac append_only_step :=
  cbv beta iota zeta;
  lazymatch goal with
  | |- append_only (ret _) => apply append_only_ret
  | |- append_only (raise _) => apply append_only_raise
  | |- append_only (of_result _) => apply append_only_of_result
  | |- append_only get => apply append_only_get
  | |- append_only (print _) => apply append_only_print
  | |- append_only (chat_sampler_send_message _ _) => apply append_only_send
  | |- append_only (for_each _ _) => apply append_only_for_each; intros
  | |- append_only (try_except _ _) => apply append_only_try_except; [|intros]
  | |- append_only (bind _ _) => apply append_only_bind; [|intros]
  end.

Lemma append_only_process_text (text : string) (prompt : option string) :
  append_only (process_text text prompt).
Proof. unfold process_text; repeat append_only_step. Qed.

Lemma append_only_process_image (image : Image) (prompt : option string) :
  append_only (process_image image prompt).
Proof.
  unfold process_image; append_only_step; [append_only_step|].
  destruct (negb _); repeat append_only_step.
Qed.

(** X3.  The methods of [GemmaAssistant] that talk to the model never drop
    or rewrite what the session holds: however [process_text],
    [process_image], [chat], [summarize_document] and
    [analyze_image_document] end, also by an exception, the history before
    the call is a prefix of the history after it, the calls already recorded
    stay recorded, and the modality is unchanged. *)
Theorem assistant_history_is_append_only :
  (forall text prompt, append_only (process_text text prompt)) /\
  (forall image prompt, append_only (process_image image prompt)) /\
  (forall message image, append_only (chat message image)) /\
  (forall C file_path, append_only (summarize_document_with C file_path)) /\
  (forall file_path extract_text,
     append_only (analyze_image_document file_path extract_text)).
Proof.
  repeat apply conj.
  - apply append_only_process_text.
  - apply append_only_process_image.
  - intros message image; unfold chat.
    append_only_step; [append_only_step|].
    destruct image as [img|]; [destruct (negb _)|]; repeat append_only_step.
  - intros C file_path; unfold summarize_document_with.
    destruct (negb _); [append_only_step|].
    destruct (_ <? _); [|apply append_only_process_text].
    append_only_step; [append_only_step|].
    append_only_step.
    + append_only_step. destruct x as [i chunk].
      append_only_step; [append_only_step|].
      append_only_step; [apply append_only_process_text | append_only_step].
    + append_only_step; [apply append_only_process_text | append_only_step].
  - intros file_path extract_text; unfold analyze_image_document.
    append_only_step; [|append_only_step].
    append_only_step; [append_only_step|].
    destruct (negb _); [append_only_step|].
    append_only_step; [append_only_step|].
    append_only_step; [apply append_only_process_image|].
    destruct extract_text; [|append_only_step].
    append_only_step; [append_only_step|].
    destruct (truthy _); [|append_only_step].
    append_only_step; [apply append_only_process_text|].
    repeat append_only_step.
Qed.

End AssistantSession.

Section AssistantConversation.
Context {E : External}.
Import AiAssistant.

Lemma chained_app (h h1 h2 : list Message) (l1 l2 : list (list Message)) :
  chained h l1 h1 -> chained h1 l2 h2 -> chained h (l1 ++ l2) h2.
Proof.
  revert h; induction l1 as [|c l1 IH]; intros h H1 H2; cbn [chained app] in *.
  - subst h1; exact H2.
  - destruct H1 as (m & reply & Hc & Hrole & Hrest).
    exists m, reply; repeat split; try assumption.
    apply IH; assumption.
Qed.

(** One successful [process_text] is one link of the chain. *)
Lemma process_text_link (Hmodel : model_total) (text prompt : string)
    (self : GemmaAssistant) (w : World) :
  exists reply self' contents,
    process_text text (Some prompt) (self, w)
    = (Ok reply, (self', record_invocation contents w)) /\
    chained (chat_sampler self) [contents] (chat_sampler self').
Proof.
  rewrite process_text_run; cbv zeta.
  match goal with |- context [generate ?c] =>
    destruct (Hmodel c) as [reply Hreply]; rewrite Hreply; set (contents := c) end.
  eexists reply, _, contents; split; [reflexivity|].
  cbn [chained chat_sampler].
  eexists _, reply; repeat split; reflexivity.
Qed.

Lemma summarize_loop_chained (Hmodel : model_total) (n : nat)
    (l : list (nat * string)) :
  forall self w,
  exists summaries self' w' new,
    for_each l (fun '(i, chunk) =>
        print ("Processing chunk " +++ str_nat (i + 1) +++ "/" +++
               str_nat n +++ "...") ;;;
        summary <- process_text chunk (Some (chunk_prompt i n)) ;;
        ret summary) (self, w)
    = (Ok summaries, (self', w')) /\
    invocations w' = invocations w ++ new /\
    chained (chat_sampler self) new (chat_sampler self').
Proof.
  match goal with |- context [for_each _ ?b] => set (body := b) end.
  induction l as [|[i chunk] l IH]; intros self w.
  - exists [], self, w, []; simpl; rewrite app_nil_r; repeat split; reflexivity.
  - cbn [for_each]. unfold bind at 1. unfold body at 1.
    unfold bind at 1, print at 1, modify at 1. cbv beta iota zeta.
    unfold bind at 1.
    match goal with |- context [process_text ?t (Some ?p) (?s, ?w0)] =>
      destruct (process_text_link Hmodel t p s w0)
        as (reply & self1 & contents & Hrun1 & Hlink); rewrite Hrun1 end.
    unfold ret at 1. unfold bind at 1.
    destruct (IH self1 (record_invocation contents
                (print_line ("Processing chunk " +++ str_nat (i + 1) +++ "/" +++
                             str_nat n +++ "...") w)))
      as (summaries & self' & w' & new & Hrun & Hinv & Hchain).
    rewrite Hrun. unfold ret.
    exists (reply :: summaries), self', w', ([contents] ++ new).
    repeat split.
    + rewrite Hinv; simpl; rewrite <- app_assoc; reflexivity.
    + eapply chained_app; eassumption.
Qed.

(** X4.  The chunks are not summarised independently of each other: all the
    calls of one [summarize_document] belong to the session's single
    multi-turn conversation.  With a model that answers, every call carries
    the history as it was before the summary, then all earlier chunk prompts
    with their summaries, then its own prompt; the session's history ends as
    the last call followed by its reply. *)
Theorem summarize_calls_share_one_conversation (Hmodel : model_total) (C : nat)
    (file_path : string) (self : GemmaAssistant) (w : World) :
  extract_text_from_document file_path <> EmptyString -> 0 < C ->
  exists reply self' w' new,
    summarize_document_with C file_path (self, w) = (Ok reply, (self', w')) /\
    invocations w' = invocations w ++ new /\
    chained (chat_sampler self) new (chat_sampler self').
Proof.
  intros HT HC.
  unfold summarize_document_with.
  set (T := extract_text_from_document file_path) in *.
  rewrite (truthy_nonempty T HT); cbn [negb].
  destruct (Nat.ltb_spec C (String.length T)) as [Hlong|Hshort].
  - destruct (split_chunks_eval C T HC ltac:(lia)) as (chunks & Hsplit & _).
    rewrite Hsplit. unfold bind at 1, of_result at 1. unfold bind at 1.
    destruct (summarize_loop_chained Hmodel (List.length chunks) (enumerate chunks) self w)
      as (summaries & self1 & w1 & new1 & Hrun & Hinv & Hchain).
    rewrite Hrun. unfold bind at 1.
    match goal with |- context [process_text ?t (Some ?p) (?s, ?w0)] =>
      destruct (process_text_link Hmodel t p s w0)
        as (reply & self2 & contents & Hrun2 & Hlink); rewrite Hrun2 end.
    unfold ret.
    eexists reply, self2, _, (new1 ++ [contents]).
    split; [reflexivity|]; split.
    + simpl; rewrite Hinv, <- app_assoc; reflexivity.
    + eapply chained_app; eassumption.
  - destruct (process_text_link Hmodel T "Please summarize this document:" self w)
      as (reply & self2 & contents & Hrun2 & Hlink).
    rewrite Hrun2.
    eexists reply, self2, _, [contents].
    split; [reflexivity|]; split; [reflexivity | exact Hlink].
Qed.

(** X5.  [analyze_image_document] never raises: whatever fails inside
    (opening the image, the text recognition, a model call) is returned as an
    error string.  On a text-only assistant it returns the capability error
    at once: the file is not opened, nothing is sent, nothing changes. *)
Theorem analyze_image_document_never_raises :
  (forall file_path extract_text s,
     exists a s', analyze_image_document file_path extract_text s = (Ok a, s')) /\
  (forall file_path extract_text history w,
     analyze_image_document file_path extract_text (mk_assistant false history, w)
     = (Ok (analysis_error capability_error), (mk_assistant false history, w))).
Proof.
  split.
  - intros file_path extract_text s; unfold analyze_image_document.
    match goal with |- context [try_except ?b ?h] =>
      apply (try_except_returns b h s) end.
    intros e s'; eexists _, _; reflexivity.
  - reflexivity.
Qed.

(** X6.  With a multimodal assistant, a model that answers, an image that
    opens and a recognised text that is not blank,
    [analyze_image_document] makes four model calls: the visual analysis with
    the image, the analysis of the text, and the combined prompt twice.  The
    reply to the first combined prompt is dropped; the combined analysis
    returned is the reply to the second. *)
Theorem analyze_image_document_sends_combined_prompt_twice (Hmodel : model_total)
    (file_path : string) (self : GemmaAssistant) (w : World)
    (image : Image) (T : string) :
  use_multimodal self = true ->
  Image_open file_path = Ok image ->
  image_to_string image = Ok T ->
  truthy (strip T) = true ->
  exists visual text_analysis combined self' w' c1 c2 c3 c4,
    analyze_image_document file_path true (self, w)
    = (Ok (analysis_full visual T text_analysis combined), (self', w')) /\
    invocations w' = invocations w ++ [c1; c2; c3; c4] /\
    c1 = chat_sampler self ++ [user_message "Analyze this document visually:" [image]] /\
    sent_prompt c3 = combined_prompt /\
    sent_prompt c4 = combined_prompt /\
    generate c4 = Ok combined /\
    chained (chat_sampler self) [c1; c2; c3; c4] (chat_sampler self').
Proof.
  intros Hmm Hopen Hocr Htext.
  unfold analyze_image_document, process_image, process_text,
    chat_sampler_send_message, session_send, _extract_from_image.
  py_run. rewrite Hmm; cbn [negb]. rewrite Hopen.
  py_run. rewrite Hmm; cbn [negb].
  py_run.
  match goal with |- context [generate ?c] =>
    destruct (Hmodel c) as [visual Hv]; rewrite Hv; set (c1 := c) end.
  py_run. rewrite Hocr, Htext.
  py_run. cbn [chat_sampler use_multimodal].
  match goal with |- context [generate (?h ++ [user_message ?p []])] =>
    destruct (Hmodel (h ++ [user_message p []])) as [ta Hta]; rewrite Hta;
    set (c2 := h ++ [user_message p []]) end.
  py_run. cbn [chat_sampler use_multimodal].
  match goal with |- context [generate ((c2 ++ ?r) ++ [user_message ?p []])] =>
    destruct (Hmodel ((c2 ++ r) ++ [user_message p []])) as [dropped Hd]; rewrite Hd;
    set (c3 := (c2 ++ r) ++ [user_message p []]) end.
  py_run. cbn [chat_sampler use_multimodal].
  match goal with |- context [generate ((c3 ++ ?r) ++ [user_message ?p []])] =>
    destruct (Hmodel ((c3 ++ r) ++ [user_message p []])) as [combined Hc]; rewrite Hc;
    set (c4 := (c3 ++ r) ++ [user_message p []]) end.
  py_run.
  eexists visual, ta, combined, _, _, c1, c2, c3, c4.
  split; [reflexivity|].
  repeat split.
  - unfold record_invocation; simpl. rewrite <- !app_assoc; reflexivity.
  - unfold c3; apply sent_prompt_snoc.
  - unfold c4; apply sent_prompt_snoc.
  - exact Hc.
  - cbn [chained chat_sampler].
    eexists _, visual; split; [reflexivity|]; split; [reflexivity|].
    eexists _, ta; split; [reflexivity|]; split; [reflexivity|].
    eexists _, dropped; split; [reflexivity|]; split; [reflexivity|].
    eexists _, combined; split; [reflexivity|]; split; reflexivity.
Qed.

End AssistantConversation.

(** The fifteen characters of the example, chunk size ten: the combine call
    carries both chunk prompts and both summaries. *)
Lemma summarize_calls_share_one_conversation_witness :
  exists reply self' w' new,
    @AiAssistant.summarize_document_with (stub (Some "summary") "abcdefghijklmno")
      10 "notes.txt" (AiAssistant.mk_assistant false [], empty_world)
    = (Ok reply, (self', w')) /\
    invocations w' = invocations empty_world ++ new /\
    chained [] new (AiAssistant.chat_sampler self').
Proof.
  apply (@summarize_calls_share_one_conversation (stub (Some "summary") "abcdefghijklmno")
           (fun _ => ex_intro _ "summary" eq_refl) 10 "notes.txt"
           (AiAssistant.mk_assistant false []) empty_world).
  - simpl; discriminate.
  - lia.
Defined.

Lemma analyze_image_document_sends_combined_prompt_twice_witness :
  exists visual text_analysis combined self' w' c1 c2 c3 c4,
    @AiAssistant.analyze_image_document (stub (Some "analysis") "Invoice 42")
      "scan.png" true (AiAssistant.mk_assistant true [], empty_world)
    = (Ok (AiAssistant.analysis_full visual "Invoice 42" text_analysis combined),
       (self', w')) /\
    invocations w' = invocations empty_world ++ [c1; c2; c3; c4] /\
    c1 = [] ++ [user_message "Analyze this document visually:" [PIL_Image "scan.png"]] /\
    sent_prompt c3 = combined_prompt /\
    sent_prompt c4 = combined_prompt /\
    @generate (stub (Some "analysis") "Invoice 42") c4 = Ok combined /\
    chained [] [c1; c2; c3; c4] (AiAssistant.chat_sampler self').
Proof.
  apply (@analyze_image_document_sends_combined_prompt_twice
           (stub (Some "analysis") "Invoice 42")
           (fun _ => ex_intro _ "analysis" eq_refl) "scan.png"
           (AiAssistant.mk_assistant true []) empty_world
           (PIL_Image "scan.png") "Invoice 42"); reflexivity.
Defined.

(** A scan on which the text recognition finds only white space. *)
Lemma analyze_image_document_skips_blank_text_witness :
  exists self',
    @AiAssistant.analyze_image_document (stub (Some "analysis") "  ")
      "scan.png" true (AiAssistant.mk_assistant true [], empty_world)
    = (Ok (AiAssistant.analysis_visual "analysis"
             "No text extracted or text extraction not requested."),
       (self', record_invocation
                 ([] ++ [user_message "Analyze this document visually:"
                           [PIL_Image "scan.png"]]) empty_world)).
Proof.
  apply (@analyze_image_document_skips_blank_text (stub (Some "analysis") "  ")
           "scan.png" (AiAssistant.mk_assistant true []) empty_world
           (PIL_Image "scan.png") "analysis" "  "); reflexivity.
Defined.

(** A PDF of one page on which no text is found. *)
Lemma pdf_text_never_empty_witness :
  exists text,
    @AiAssistant._extract_from_pdf (stub None EmptyString) "scan.pdf" = Ok text /\
    text <> EmptyString.
Proof.
  apply (@pdf_text_never_empty (stub None EmptyString) "scan.pdf" EmptyString []).
  reflexivity.
Defined.

(* ================================================================= *)
(** * More of topic_expert.py *)

Section Expert.
Context {E : External}.
Import TopicExpert.

(** X9.  [ask] never raises and makes exactly one model call, with the
    history and the question.  When the call succeeds the question and the
    answer are appended to the history; when it fails the answer is the
    string "Error: ..." and the history is left as it was, so the failed
    question is not part of any later call. *)
Theorem ask_failure_leaves_conversation (question : string) (self : TopicExpert)
    (w : World) :
  let contents := chat self ++ [user_message question []] in
  exists answer history,
    ask question (self, w)
    = (Ok answer, (set_chat history self, record_invocation contents w)) /\
    match generate contents with
    | Ok reply => answer = reply /\ history = contents ++ [assistant_message reply]
    | Raise e => answer = "Error: " +++ str e /\ history = chat self
    end.
Proof.
  intro contents.
  unfold ask, chat_send_message, session_send; py_run.
  fold contents.
  destruct (generate contents) as [reply|e]; eexists _, _; split;
    try reflexivity; split; reflexivity.
Qed.

(** X10.  The specialised knowledge given to an expert never reaches the
    model: the hidden message is built from the topic alone, so two experts
    on one topic, created with different contexts, have the same
    conversation and have caused the same calls and output; the same holds
    for their resets. *)
Theorem expert_context_never_reaches_model (topic : string)
    (context1 context2 : option string) (name : string) (w : World) :
  (exists history w',
     __init__ topic context1 name w
       = (Ok (mk_expert topic context1 name history), w') /\
     __init__ topic context2 name w
       = (Ok (mk_expert topic context2 name history), w')) /\
  (forall history1 history2,
   exists history w',
     reset (mk_expert topic context1 name history1, w)
       = (Ok tt, (mk_expert topic context1 name history, w')) /\
     reset (mk_expert topic context2 name history2, w)
       = (Ok tt, (mk_expert topic context2 name history, w'))).
Proof.
  split.
  - unfold __init__, construct. rewrite !send_system_prompt_run. cbv zeta.
    unfold start_chat, set_chat; cbn [chat TopicExpert.topic].
    destruct (generate _); eexists _, _; split; reflexivity.
  - intros history1 history2.
    unfold reset. unfold bind, modify, get.
    rewrite !send_system_prompt_run. cbv zeta.
    unfold start_chat, set_chat; cbn [chat TopicExpert.topic fst].
    destruct (generate _); eexists _, _; split; reflexivity.
Qed.


Lemma reset_returns (s : St) : exists s', reset s = (Ok tt, s').
Proof.
  destruct s as [self w]; destruct (reset_run self w) as (w' & Hrun & _).
  eexists; exact Hrun.
Qed.

Lemma ask_returns (question : string) (s : St) :
  exists answer s', ask question s = (Ok answer, s').
Proof.
  unfold ask.
  match goal with |- context [try_except ?b ?h] =>
    apply (try_except_returns b h s) end.
  intros e s'; eexists _, _; reflexivity.
Qed.

(** X12.  Nothing after the [exit] command is read: the lines that follow
    it have no effect at all on the run of the interactive loop. *)
Theorem expert_loop_stops_at_exit (before : list string) (command : string)
    (after : list string) :
  is_exit command = true ->
  interactive_loop (before ++ command :: after)
  = interactive_loop (before ++ [command]).
Proof.
  intro Hexit; unfold is_exit in Hexit.
  induction before as [|line before IH];
    rewrite ?app_nil_l, <- ?app_comm_cons; cbn [interactive_loop]; cbv zeta.
  - rewrite Hexit; reflexivity.
  - rewrite IH; reflexivity.
Qed.

(** X13.  A session of the topic expert that ends with [exit] ends
    normally, whatever the lines before it are and whatever the model does:
    no failure of the model leaves the loop. *)
Theorem expert_loop_survives_model_failures (lines : list string) (command : string) :
  is_exit command = true ->
  forall s, exists s', interactive_mode (lines ++ [command]) s = (Ok tt, s').
Proof.
  intro Hexit; unfold is_exit in Hexit.
  assert (Hloop : forall s, exists s',
             interactive_loop (lines ++ [command]) s = (Ok tt, s')).
  { induction lines as [|line lines IH]; intros s;
      rewrite ?app_nil_l, <- ?app_comm_cons; cbn [interactive_loop]; cbv zeta.
    - rewrite Hexit; destruct s; eexists; reflexivity.
    - unfold bind at 1, print at 1, modify at 1.
      destruct (String.eqb (lower (strip line)) "exit");
        [destruct s; eexists; reflexivity|].
      destruct (String.eqb (lower (strip line)) "reset").
      + unfold bind at 1.
        match goal with |- context [reset ?s0] =>
          destruct (reset_returns s0) as [s1 Hr]; rewrite Hr end.
        unfold bind at 1, print at 1, modify at 1. apply IH.
      + destruct (negb (truthy (strip line))); [apply IH|].
        unfold bind at 1.
        match goal with |- context [ask ?q ?s0] =>
          destruct (ask_returns q s0) as (answer & s1 & Ha); rewrite Ha end.
        unfold bind at 1, print at 1, modify at 1. apply IH. }
  intro s; unfold interactive_mode.
  unfold bind at 1, get at 1. unfold bind at 1, print at 1, modify at 1.
  unfold bind at 1, print at 1, modify at 1. apply Hloop.
Qed.

End Expert.

Lemma expert_loop_stops_at_exit_witness :
  @TopicExpert.interactive_loop (stub (Some "42.") EmptyString)
    (["What is six times seven?"] ++ " Exit " :: ["What is the Moon?"; "reset"])
  = @TopicExpert.interactive_loop (stub (Some "42.") EmptyString)
      (["What is six times seven?"] ++ [" Exit "]).
Proof.
  apply (@expert_loop_stops_at_exit (stub (Some "42.") EmptyString)); reflexivity.
Defined.

(** A session during which the model is unavailable. *)
Lemma expert_loop_survives_model_failures_witness :
  exists s',
    @TopicExpert.interactive_mode (stub None EmptyString)
      (["What is the Moon?"; ""; "reset"] ++ ["exit"])
      (TopicExpert.mk_expert "astronomy" None "gemma-3-8b-it" [], empty_world)
    = (Ok tt, s').
Proof.
  apply (@expert_loop_survives_model_failures (stub None EmptyString)); reflexivity.
Defined.

Example expert_session_output :
  stdout (snd (snd
    (@TopicExpert.interactive_mode (stub None EmptyString)
       ["What is the Moon?"; "  "; "EXIT"; "never read"]
       (TopicExpert.mk_expert "astronomy" None "gemma-3-8b-it" [], empty_world))))
  = [nl +++ "=== Gemma 3 astronomy Expert ===";
     "Ask questions about this topic or type 'exit' to quit, 'reset' to restart the conversation.";
     nl +++ "You: ";
     nl +++ "Expert: Error: model unavailable";
     nl +++ "You: ";
     nl +++ "You: ";
     "Goodbye!"].
Proof. vm_compute; reflexivity. Qed.

(* ================================================================= *)
(** * The interactive mode of ai_assistant.py *)

Section AssistantCli.
Context {E : External}.
Variable os_path_exists : string -> bool.
Import AiAssistant.

(** X14.  In the interactive mode of the assistant a failed model call ends
    the session: [chat] has no handler, so the exception of the model leaves
    the loop and the lines that follow are not read. *)
Theorem assistant_loop_stops_on_model_failure (line : string) (rest : list string)
    (self : GemmaAssistant) (w : World) (e : exn) :
  is_chat_line line = true ->
  generate (chat_sampler self ++ [user_message (strip line) []]) = Raise e ->
  exists self',
    AiAssistantCli.interactive_loop os_path_exists (line :: rest) (self, w)
    = (Raise e,
       (self', record_invocation (chat_sampler self ++ [user_message (strip line) []])
                 (print_line (nl +++ "You: ") w))).
Proof.
  unfold is_chat_line; cbv zeta; intros Hline Hfail.
  apply andb_prop in Hline; destruct Hline as [Hline Hdoc].
  apply andb_prop in Hline; destruct Hline as [Hline Himage].
  apply andb_prop in Hline; destruct Hline as [Hexit Hreset].
  apply negb_true_iff in Hexit, Hreset, Himage, Hdoc.
  cbn [AiAssistantCli.interactive_loop]; cbv zeta.
  rewrite Hexit, Hreset, Himage, Hdoc.
  unfold chat, chat_sampler_send_message, session_send, print; py_run.
  cbn [chat_sampler]. rewrite Hfail.
  eexists; reflexivity.
Qed.

(** X15.  A [document] command that names a file that does not exist costs
    no model call: the loop prints that the document was not found and goes
    on with the next line, the session unchanged. *)
Theorem assistant_loop_skips_missing_document (line : string) (rest : list string)
    (self : GemmaAssistant) (w : World) :
  startswith (lower (strip line)) "document " = true ->
  os_path_exists (document_path line) = false ->
  AiAssistantCli.interactive_loop os_path_exists (line :: rest) (self, w)
  = AiAssistantCli.interactive_loop os_path_exists rest
      (self, print_line ("Document not found: " +++ document_path line)
               (print_line (nl +++ "You: ") w)).
Proof.
  unfold document_path; cbv zeta; intros Hdoc Hmissing.
  cbn [AiAssistantCli.interactive_loop]; cbv zeta.
  destruct (String.eqb_spec (lower (strip line)) "exit") as [Heq|_];
    [rewrite Heq in Hdoc; discriminate Hdoc|].
  destruct (String.eqb_spec (lower (strip line)) "reset") as [Heq|_];
    [rewrite Heq in Hdoc; discriminate Hdoc|].
  destruct (String.eqb_spec (lower (strip line)) "image") as [Heq|_];
    [rewrite Heq in Hdoc; discriminate Hdoc|].
  rewrite Hdoc, Hmissing.
  unfold print; py_run. reflexivity.
Qed.

End AssistantCli.

Lemma assistant_loop_stops_on_model_failure_witness :
  exists self',
    @AiAssistantCli.interactive_loop (stub None EmptyString) (fun _ => true)
      ("Hello" :: ["exit"]) (AiAssistant.mk_assistant false [], empty_world)
    = (Raise (mk_exn Exception "model unavailable"),
       (self', record_invocation ([] ++ [user_message (strip "Hello") []])
                 (print_line (nl +++ "You: ") empty_world))).
Proof.
  apply (@assistant_loop_stops_on_model_failure (stub None EmptyString)
           (fun _ => true) "Hello" ["exit"] (AiAssistant.mk_assistant false [])
           empty_world (mk_exn Exception "model unavailable")); reflexivity.
Defined.

Lemma assistant_loop_skips_missing_document_witness :
  @AiAssistantCli.interactive_loop (stub (Some "ok") "text") (fun _ => false)
    ("Document  report.pdf " :: ["exit"]) (AiAssistant.mk_assistant false [], empty_world)
  = @AiAssistantCli.interactive_loop (stub (Some "ok") "text") (fun _ => false)
      ["exit"]
      (AiAssistant.mk_assistant false [],
       print_line ("Document not found: " +++ document_path "Document  report.pdf ")
         (print_line (nl +++ "You: ") empty_world)).
Proof.
  apply (@assistant_loop_skips_missing_document (stub (Some "ok") "text")
           (fun _ => false) "Document  report.pdf " ["exit"]); reflexivity.
Defined.

Example document_path_of_command :
  document_path "Document  report.pdf " = "report.pdf".
Proof. reflexivity. Qed.

(* ================================================================= *)
(** * More of gemma_api.py *)

Section Api.
Context {E : External}.
Import GemmaApi.

Lemma prefix_iff (p s : string) :
  prefix p s = true <-> exists rest, s = p +++ rest.
Proof.
  revert s; induction p as [|c p IH]; intros s; cbn [String.append].
  - rewrite prefix_empty; split; [intros _; exists s; reflexivity | reflexivity].
  - destruct s as [|d s]; cbn [prefix].
    + split; [discriminate | intros [rest H]; discriminate H].
    + destruct (ascii_dec c d) as [<-|Hne].
      * rewrite IH; split; intros [rest H]; exists rest; congruence.
      * split; [discriminate | intros [rest H]; congruence].
Qed.

(** [contains] decides the occurrence of a substring, as Python's [in]. *)
Lemma contains_iff (s needle : string) :
  contains s needle = true <-> occurs needle s.
Proof.
  unfold occurs; induction s as [|c s IH]; cbn [contains].
  - rewrite orb_false_r, prefix_iff; split.
    + intros [rest H]; exists EmptyString, rest; exact H.
    + intros (before & after & H); destruct before; [exists after; exact H|].
      discriminate H.
  - rewrite orb_true_iff, prefix_iff, IH; split.
    + intros [[rest H]|(before & after & H)].
      * exists EmptyString, rest; exact H.
      * exists (String c before), after; cbn; rewrite H; reflexivity.
    + intros (before & after & H); destruct before as [|d before].
      * left; exists after; exact H.
      * right; exists before, after; cbn in H; congruence.
Qed.

(** X16.  [generate_text] is a single-shot call: it never raises, it sends
    the prompt alone, whatever the chat session holds, and it leaves the
    session as it was.  A failure of the model is returned as the string
    "Error generating text: ...". *)
Theorem generate_text_is_stateless (prompt : string) (api : GemmaAPI) (w : World) :
  exists answer,
    generate_text prompt (api, w)
    = (Ok answer, (api, record_invocation [user_message prompt []] w)) /\
    match generate [user_message prompt []] with
    | Ok reply => answer = reply
    | Raise e => answer = "Error generating text: " +++ str e
    end.
Proof.
  unfold generate_text, on_world, generate_content; py_run.
  destruct (generate _); eexists; split; reflexivity.
Qed.

(** X17.  The image methods of [GemmaAPI] are gated on the model name: when
    "vision" does not occur in it, [process_image] and
    [process_image_base64] return the error string at once; the file is not
    opened, the payload is not decoded, the model is not called. *)
Theorem api_requires_vision_model (name : string) (history : list Message) (w : World) :
  ~ occurs "vision" name ->
  (forall image_path prompt,
     process_image image_path prompt (mk_api name history, w)
     = (Ok vision_required, (mk_api name history, w))) /\
  (forall image_base64 prompt,
     process_image_base64 image_base64 prompt (mk_api name history, w)
     = (Ok vision_required, (mk_api name history, w))).
Proof.
  intro Hno.
  assert (Hc : contains name "vision" = false).
  { destruct (contains name "vision") eqn:Hc; [|reflexivity].
    exfalso; apply Hno, contains_iff; exact Hc. }
  split; intros; unfold process_image, process_image_base64; py_run;
    cbn [model_name]; rewrite Hc; reflexivity.
Qed.

(** X18.  With a vision model the image methods of [GemmaAPI] never raise,
    and an image that cannot be obtained costs no model call: a file that
    does not open, or a base64 string that does not decode to an image, is
    answered with an error string.  [process_image_base64] hands the string
    to the decoder as it is given. *)
Theorem api_image_failure_is_returned (name : string) (history : list Message)
    (w : World) (image_path image_base64 prompt : string) (x y : exn) :
  occurs "vision" name ->
  Image_open image_path = Raise x ->
  decode_image image_base64 = Raise y ->
  process_image image_path prompt (mk_api name history, w)
  = (Ok ("Error processing image: " +++ str x), (mk_api name history, w)) /\
  process_image_base64 image_base64 prompt (mk_api name history, w)
  = (Ok ("Error processing base64 image: " +++ str y), (mk_api name history, w)).
Proof.
  intros Hyes Hopen Hdecode; apply contains_iff in Hyes.
  split; unfold process_image, process_image_base64; py_run;
    cbn [model_name]; rewrite Hyes; cbn [negb].
  - rewrite Hopen; reflexivity.
  - unfold decode_image in Hdecode.
    destruct (b64decode image_base64) as [bytes|z].
    + rewrite Hdecode; reflexivity.
    + injection Hdecode as ->; reflexivity.
Qed.

End Api.

Lemma api_requires_vision_model_witness :
  (forall image_path prompt,
     @GemmaApi.process_image (stub (Some "A cat.") EmptyString) image_path prompt
       (GemmaApi.mk_api "gemma-3-8b-it" [], empty_world)
     = (Ok GemmaApi.vision_required, (GemmaApi.mk_api "gemma-3-8b-it" [], empty_world))) /\
  (forall image_base64 prompt,
     @GemmaApi.process_image_base64 (stub (Some "A cat.") EmptyString) image_base64 prompt
       (GemmaApi.mk_api "gemma-3-8b-it" [], empty_world)
     = (Ok GemmaApi.vision_required, (GemmaApi.mk_api "gemma-3-8b-it" [], empty_world))).
Proof.
  apply (@api_requires_vision_model (stub (Some "A cat.") EmptyString)
           "gemma-3-8b-it" [] empty_world).
  intro H; apply contains_iff in H; vm_compute in H; discriminate H.
Defined.

(** A picture that cannot be opened, as a file and as a payload. *)
Lemma api_image_failure_is_returned_witness :
  let E := stub_io (Some "A cat.") ".png" (Ok EmptyString)
             (Raise (mk_exn Exception "cannot identify image file")) in
  @GemmaApi.process_image E "cat.png" "What is in this picture?"
    (GemmaApi.mk_api "gemma-3-vision-it" [], empty_world)
  = (Ok "Error processing image: cannot identify image file",
     (GemmaApi.mk_api "gemma-3-vision-it" [], empty_world)) /\
  @GemmaApi.process_image_base64 E "aGVsbG8=" "What is in this picture?"
    (GemmaApi.mk_api "gemma-3-vision-it" [], empty_world)
  = (Ok "Error processing base64 image: cannot identify image file",
     (GemmaApi.mk_api "gemma-3-vision-it" [], empty_world)).
Proof.
  intro E.
  apply (@api_image_failure_is_returned E "gemma-3-vision-it" [] empty_world
           "cat.png" "aGVsbG8=" "What is in this picture?"
           (mk_exn Exception "cannot identify image file")
           (mk_exn Exception "cannot identify image file")).
  - apply contains_iff; vm_compute; reflexivity.
  - reflexivity.
  - reflexivity.
Defined.

Example api_base64_keeps_data_uri_header :
  @GemmaApi.process_image_base64 (stub (Some "A cat.") EmptyString)
    "data:image/png;base64,aGVsbG8=" "What is in this picture?"
    (GemmaApi.mk_api "gemma-3-vision-it" [], empty_world)
  = (Ok "A cat.",
     (GemmaApi.mk_api "gemma-3-vision-it" [],
      mk_world [[user_message "What is in this picture?"
                   [PIL_Image "data:image/png;base64,aGVsbG8="]]] [])).
Proof. vm_compute; reflexivity. Qed.

(* ================================================================= *)
(** * More of gemma_web_app.py *)

Section WebApp.
Context {E : External} {L : Startup}.
Import GemmaWebApp.

(** X19.  A vision client reads an image payload in both forms alike: the
    bare base64 string and the same string behind a data-URI header give the
    same run, in which the payload is decoded, the model gets one single-shot
    call with the message and the image, without the chat history, and the
    client is left unchanged. *)
Theorem client_decodes_both_payload_forms (message name : string)
    (history : list Message) (w : World) (header payload : string) :
  truthy payload = true ->
  startswith payload "data:image" = false ->
  has_char "," header = false ->
  has_char "," payload = false ->
  let c := mk_client true name history in
  send_message message (Some payload) (c, w) = send_decoded message payload c w /\
  send_message message (Some ("data:image" +++ header +++ String "," payload)) (c, w)
  = send_decoded message payload c w.
Proof.
  intros Hne Hpre Hh Hp c.
  destruct (client_strips_data_uri message name history w) as [Hbare Huri].
  split; [apply Hbare; assumption | apply Huri; assumption].
Qed.

(** X20.  Image data that cannot be read as a payload: a string that starts
    like a data URI but has no comma is answered with the error string of the
    failed indexing, nothing is decoded and the model is not called; an empty
    string counts as no image, and the message goes to the text
    conversation. *)
Theorem client_malformed_image_data (message name : string)
    (history : list Message) (w : World) (rest : string) :
  has_char "," rest = false ->
  let c := mk_client true name history in
  send_message message (Some ("data:image" +++ rest)) (c, w)
  = (Ok "Error: list index out of range", (c, w)) /\
  send_message message (Some EmptyString) (c, w) = send_message message None (c, w).
Proof.
  intros Hrest c; split; [|reflexivity].
  assert (Hs : split "," ("data:image" +++ rest) = ["data:image" +++ rest])
    by (apply split_without_separator; exact Hrest).
  unfold send_message, index; py_run. rewrite Hs.
  cbn [truthy_opt use_vision c truthy String.append andb nth_error].
  unfold startswith; cbn [prefix].
  repeat (destruct (ascii_dec _ _) as [_|Hneq]; [|exfalso; apply Hneq; reflexivity]).
  rewrite prefix_empty.
  reflexivity.
Qed.

(** X21.  [initialize_clients] never raises.  Without an API key it
    returns [False] and leaves the clients as they were.  With a key it
    builds the text client, then the vision client: it returns [True] when
    both constructions succeed; when one fails it prints the error and
    returns [False], and then a text client already built stays installed
    while the vision client is the old one.  The result store and the record
    of model calls are untouched; after a successful initialisation the next
    text job reaches the model with its prompt alone. *)
Theorem initialize_clients_outcome (key : option string)
    (t v : option GemmaClient) (q : list Entry) (th : list Job) (w : World) :
  initialize_clients (mk_app key t v q th w)
  = (if truthy_opt key then
       let w1 := print_line "Initializing Gemma clients..." w in
       match GenerativeModel "gemma-3-8b-it" with
       | Raise e =>
           (Ok false,
            mk_app key t v q th
              (print_line ("Error initializing Gemma clients: " +++ str e) w1))
       | Ok _ =>
           match GenerativeModel "gemma-3-vision-it" with
           | Raise e =>
               (Ok false,
                mk_app key (Some (GemmaClient__init__ false)) v q th
                  (print_line ("Error initializing Gemma clients: " +++ str e) w1))
           | Ok _ =>
               (Ok true,
                mk_app key (Some (GemmaClient__init__ false))
                  (Some (GemmaClient__init__ true)) q th
                  (print_line "Gemma clients initialized successfully!" w1))
           end
       end
     else
       (Ok false,
        mk_app key t v q th
          (print_line
             "You can get an API key from Google AI Studio: https://makersuite.google.com/"
             (print_line
                "Warning: Google API key not found. Please set the GOOGLE_API_KEY environment variable."
                w)))) /\
  (forall prompt cid w',
   exists g',
     process_text_query prompt cid
       (mk_app key (Some (GemmaClient__init__ false))
          (Some (GemmaClient__init__ true)) q th w')
     = (Ok tt, g') /\
     invocations (world g') = invocations w' ++ [[user_message prompt []]]).
Proof.
  split.
  - unfold initialize_clients, GemmaClient_new, print; py_run.
    cbn [API_KEY GemmaClient__init__ model_name].
    destruct (truthy_opt key); cbn [negb]; [|reflexivity].
    destruct (GenerativeModel "gemma-3-8b-it"); [|reflexivity].
    destruct (GenerativeModel "gemma-3-vision-it"); reflexivity.
  - intros prompt cid w'; rewrite web_app_text_worker; cbn [text_client world].
    unfold send_message, session_send; py_run.
    cbn [truthy_opt andb GemmaClient__init__ chat_session use_vision start_chat app].
    destruct (generate _); eexists; split; reflexivity.
Qed.

(** X22.  [reset_conversation] of the web application never raises and is
    selective: type "text" empties the conversation of the text client and
    type "image" that of the vision client, if the client exists; any other
    type, or a client that is not initialised, changes nothing.  The result
    store, the started threads and the outside world are never touched. *)
Theorem web_app_reset_is_selective (conversation_type : string)
    (key : option string) (t v : option GemmaClient) (q : list Entry)
    (th : list Job) (w : World) :
  reset_conversation conversation_type (mk_app key t v q th w)
  = (Ok tt,
     mk_app key
       (if String.eqb conversation_type "text" then option_map cleared t else t)
       (if String.eqb conversation_type "text" then v
        else if String.eqb conversation_type "image" then option_map cleared v else v)
       q th w).
Proof.
  unfold reset_conversation, on_text_client, on_vision_client, reset, cleared; py_run.
  cbn [text_client vision_client world].
  destruct (String.eqb_spec conversation_type "text") as [->|Hne].
  - cbn [String.eqb Ascii.eqb Bool.eqb].
    destruct t as [c|]; reflexivity.
  - destruct (String.eqb conversation_type "image");
      destruct v as [c|]; reflexivity.
Qed.

Lemma web_app_job_keeps_threads (j : Job) (g : App) :
  exists e g',
    run_job j g = (Ok tt, g') /\
    response_queue g' = response_queue g ++ [e] /\
    conversation_id e = job_conversation j /\
    threads g' = threads g.
Proof.
  destruct j as [prompt cid|prompt image_data cid]; cbn [run_job].
  - rewrite web_app_text_worker.
    destruct (text_client g) as [c|].
    + destruct (send_message prompt None (c, world g))
        as [[r|x] [c' w']]; eexists _, _; repeat split; reflexivity.
    + eexists _, _; repeat split; reflexivity.
  - rewrite web_app_image_worker.
    destruct (vision_client g) as [c|].
    + destruct (send_message prompt (Some image_data) (c, world g))
        as [[r|x] [c' w']]; eexists _, _; repeat split; reflexivity.
    + eexists _, _; repeat split; reflexivity.
Qed.

(** X23.  Submitting does not wait for the model: the route answers
    [processing] at once and only records the started thread; the result
    store and the outside world are untouched.  When that thread later runs,
    it ends normally, publishes exactly one entry, tagged with the submitted
    conversation, and is gone from the started threads. *)
Theorem submitted_job_publishes_one_entry (j : Job) (g : App) :
  exists g1 e g2,
    web_app_submit j g = (Ok processing, g1) /\
    response_queue g1 = response_queue g /\
    world g1 = world g /\
    threads g1 = threads g ++ [j] /\
    run_thread (List.length (threads g)) g1 = (Ok tt, g2) /\
    response_queue g2 = response_queue g ++ [e] /\
    conversation_id e = job_conversation j /\
    threads g2 = threads g.
Proof.
  set (g1 := set_threads (threads g ++ [j]) g).
  assert (Hsubmit : web_app_submit j g = (Ok processing, g1)).
  { destruct j; reflexivity. }
  assert (Hnth : nth_error (threads g ++ [j]) (List.length (threads g)) = Some j).
  { rewrite nth_error_app2, Nat.sub_diag by lia; reflexivity. }
  assert (Hrest : firstn (List.length (threads g)) (threads g ++ [j])
                  ++ skipn (S (List.length (threads g))) (threads g ++ [j])
                  = threads g).
  { rewrite firstn_app, Nat.sub_diag, firstn_all, skipn_all2
      by (rewrite length_app; simpl; lia).
    simpl; rewrite !app_nil_r; reflexivity. }
  destruct (web_app_job_keeps_threads j (set_threads (threads g) g1))
    as (e & g2 & Hrun & Hq & Hc & Hth).
  exists g1, e, g2.
  split; [exact Hsubmit|].
  split; [reflexivity|]. split; [reflexivity|]. split; [reflexivity|].
  split; [|split; [exact Hq | split; [exact Hc | exact Hth]]].
  unfold run_thread; py_run.
  cbn [threads g1 set_threads]. rewrite Hnth.
  py_run. cbn [threads set_threads]. rewrite Hrest.
  exact Hrun.
Qed.

End WebApp.

Lemma client_decodes_both_payload_forms_witness :
  let E := stub (Some "A cat.") EmptyString in
  let c := GemmaWebApp.mk_client true "gemma-3-vision-it" [] in
  @GemmaWebApp.send_message E "What is in this picture?" (Some "aGVsbG8=")
    (c, empty_world)
  = @send_decoded E "What is in this picture?" "aGVsbG8=" c empty_world /\
  @GemmaWebApp.send_message E "What is in this picture?"
    (Some ("data:image" +++ "/png;base64" +++ String "," "aGVsbG8=")) (c, empty_world)
  = @send_decoded E "What is in this picture?" "aGVsbG8=" c empty_world.
Proof.
  intros E c.
  apply (@client_decodes_both_payload_forms E "What is in this picture?"
           "gemma-3-vision-it" [] empty_world "/png;base64" "aGVsbG8="); reflexivity.
Defined.

Lemma client_malformed_image_data_witness :
  let E := stub (Some "A cat.") EmptyString in
  let c := GemmaWebApp.mk_client true "gemma-3-vision-it" [] in
  @GemmaWebApp.send_message E "What is in this picture?"
    (Some ("data:image" +++ "/png;base64")) (c, empty_world)
  = (Ok "Error: list index out of range", (c, empty_world)) /\
  @GemmaWebApp.send_message E "What is in this picture?" (Some EmptyString)
    (c, empty_world)
  = @GemmaWebApp.send_message E "What is in this picture?" None (c, empty_world).
Proof.
  intros E c.
  apply (@client_malformed_image_data E "What is in this picture?"
           "gemma-3-vision-it" [] empty_world "/png;base64"); reflexivity.
Defined.

(* ================================================================= *)
(** * More of the dispatcher *)

Section Routes.
Context {E : External}.

Lemma web_app_polls (k : nat) :
  forall g,
    let run := run_events GemmaWebApp.response_queue_put GemmaWebApp.check_status
                 (repeat polled k) g in
    List.length (fst run) = k /\
    delivered (fst run) = firstn k (GemmaWebApp.response_queue g) /\
    GemmaWebApp.response_queue (snd run) = skipn k (GemmaWebApp.response_queue g).
Proof.
  induction k as [|k IH]; intros g; cbn [repeat run_events].
  - repeat split.
  - destruct (GemmaWebApp.response_queue g) as [|e q] eqn:Hq.
    + rewrite (web_app_poll_empty g Hq).
      specialize (IH g); cbv zeta in IH; rewrite Hq in IH.
      destruct (run_events _ _ (repeat polled k) g) as [answers g''].
      cbn [fst snd] in *; destruct IH as (Hlen & Hd & Hr).
      rewrite firstn_nil in Hd; rewrite skipn_nil in Hr.
      repeat split; cbn; congruence.
    + rewrite (web_app_poll_oldest g e q Hq).
      specialize (IH (GemmaWebApp.set_response_queue q g)); cbv zeta in IH.
      destruct (run_events _ _ (repeat polled k) _) as [answers g''].
      cbn [fst snd GemmaWebApp.response_queue GemmaWebApp.set_response_queue] in *.
      destruct IH as (Hlen & Hd & Hr).
      repeat split; cbn; rewrite ?entry_eta; congruence.
Qed.

Lemma interface_polls (k : nat) :
  forall g,
    let run := run_events WebInterface.response_queue_put WebInterface.check_status
                 (repeat polled k) g in
    List.length (fst run) = k /\
    delivered (fst run) = firstn k (WebInterface.response_queue g) /\
    WebInterface.response_queue (snd run) = skipn k (WebInterface.response_queue g).
Proof.
  induction k as [|k IH]; intros g; cbn [repeat run_events].
  - repeat split.
  - destruct (WebInterface.response_queue g) as [|e q] eqn:Hq.
    + rewrite (interface_poll_empty g Hq).
      specialize (IH g); cbv zeta in IH; rewrite Hq in IH.
      destruct (run_events _ _ (repeat polled k) g) as [answers g''].
      cbn [fst snd] in *; destruct IH as (Hlen & Hd & Hr).
      rewrite firstn_nil in Hd; rewrite skipn_nil in Hr.
      repeat split; cbn; congruence.
    + rewrite (interface_poll_oldest g e q Hq).
      specialize (IH (WebInterface.set_response_queue q g)); cbv zeta in IH.
      destruct (run_events _ _ (repeat polled k) _) as [answers g''].
      cbn [fst snd WebInterface.response_queue WebInterface.set_response_queue] in *.
      destruct IH as (Hlen & Hd & Hr).
      repeat split; cbn; rewrite ?entry_eta; congruence.
Qed.

(** X24.  Polling drains the result store in order: in both front ends,
    [k] polls in a row all answer, they hand out the [k] oldest entries,
    oldest first (all of them if there are fewer, the other polls answering
    [processing]), and leave the remaining entries stored. *)
Theorem polls_drain_oldest_first (k : nat) :
  (forall g,
     let run := run_events GemmaWebApp.response_queue_put GemmaWebApp.check_status
                  (repeat polled k) g in
     List.length (fst run) = k /\
     delivered (fst run) = firstn k (GemmaWebApp.response_queue g) /\
     GemmaWebApp.response_queue (snd run) = skipn k (GemmaWebApp.response_queue g)) /\
  (forall g,
     let run := run_events WebInterface.response_queue_put WebInterface.check_status
                  (repeat polled k) g in
     List.length (fst run) = k /\
     delivered (fst run) = firstn k (WebInterface.response_queue g) /\
     WebInterface.response_queue (snd run) = skipn k (WebInterface.response_queue g)).
Proof. split; [apply web_app_polls | apply interface_polls]. Qed.

(** X25.  [/api/models] lists exactly the models whose name contains
    "gemma" in any letter case, in the order the API yields them; a failure
    of the API is answered with its message, not raised. *)
Theorem get_models_lists_gemma_models :
  (forall names,
   exists listed,
     GemmaWebApp.get_models (Ok names) = GemmaWebApp.models listed /\
     listed = filter (fun name => contains (lower name) "gemma") names /\
     forall name, In name listed <-> In name names /\ occurs "gemma" (lower name)) /\
  (forall e, GemmaWebApp.get_models (Raise e) = GemmaWebApp.models_error (str e)).
Proof.
  split; [|reflexivity].
  intros names; eexists; split; [reflexivity|]; split; [reflexivity|].
  intros name; rewrite filter_In, contains_iff; reflexivity.
Qed.

End Routes.

Example get_models_example :
  GemmaWebApp.get_models
    (Ok ["models/gemini-pro"; "models/Gemma-3-27b-it"; "models/embedding-001";
         "models/gemma-3-vision-it"])
  = GemmaWebApp.models ["models/Gemma-3-27b-it"; "models/gemma-3-vision-it"].
Proof. reflexivity. Qed.

(* ================================================================= *)
(** * More of web_interface.py *)

Section Interface.
Context {E : External} {L : Startup}.
Import WebInterface.

(** X26.  The jobs of [web_interface.py] need the models: a text job that
    runs before [load_models] has set the samplers is answered with the
    AttributeError of the missing sampler in the error field, and the model
    is not called.  When every call of the library succeeds, [load_models]
    installs two samplers with empty conversations, whatever was there
    before, without touching the result store, and the text job that runs
    next reaches the model with its prompt alone.  When a call fails,
    [load_models] ends with that exception: the vision sampler is as before,
    and the text sampler is installed only if the failing call is the last
    one, the construction of the vision sampler. *)
Theorem interface_jobs_need_loaded_models (prompt cid : string)
    (c v : option (list Message)) (q : list Entry) (th : list Job) (w : World) :
  process_text_query prompt cid (mk_app None v q th w)
  = (Ok tt,
     mk_app None v
       (q ++ [mk_entry cid None
                (Some "'NoneType' object has no attribute 'send_message'")]) th w) /\
  ((forall step, In step load_order -> gm_call step = Ok tt) ->
   exists w1,
     load_models (mk_app c v q th w) = (Ok tt, mk_app (Some []) (Some []) q th w1) /\
     invocations w1 = invocations w /\
     exists g2,
       process_text_query prompt cid (mk_app (Some []) (Some []) q th w1) = (Ok tt, g2) /\
       invocations (world g2) = invocations w ++ [[user_message prompt []]]) /\
  (forall k e,
     k < List.length load_order ->
     (forall i, i < k -> gm_call (nth i load_order gm_Tokenizer) = Ok tt) ->
     gm_call (nth k load_order gm_Tokenizer) = Raise e ->
     load_models (mk_app c v q th w)
     = (Raise e,
        mk_app (if 6 <=? k then Some [] else c) v q th
          (print_line "Loading Gemma 3 models..." w))).
Proof.
  split; [reflexivity|]. split.
  - intro Hall.
    assert (H1 := Hall gm_Gemma3_4B ltac:(cbn; tauto)).
    assert (H2 := Hall gm_load_params_4B_IT ltac:(cbn; tauto)).
    assert (H3 := Hall gm_Gemma3Vision_4B ltac:(cbn; tauto)).
    assert (H4 := Hall gm_load_params_VISION_4B_IT ltac:(cbn; tauto)).
    assert (H5 := Hall gm_Tokenizer ltac:(cbn; tauto)).
    assert (H6 := Hall (gm_ChatSampler false) ltac:(cbn; tauto)).
    assert (H7 := Hall (gm_ChatSampler true) ltac:(cbn; tauto)).
    unfold load_models, print; py_run.
    rewrite H1, H2, H3, H4, H5, H6, H7.
    eexists; split; [reflexivity|]; split; [reflexivity|].
    rewrite interface_text_worker.
    unfold chat_sampler_send_message, session_send; py_run.
    cbn [chat_sampler world app].
    destruct (generate _); eexists; split; reflexivity.
  - intros k e Hk Hbefore Hat.
    unfold load_models, print; py_run.
    do 7 (destruct k as [|k];
          [ cbn [nth load_order] in Hat;
            repeat match goal with
                   | H : forall i, i < ?n -> _ |- _ =>
                       match n with
                       | S ?m =>
                           let Hi := fresh "Hi" in
                           assert (Hi := H m ltac:(lia)); cbn [nth load_order] in Hi;
                           assert (forall i, i < m -> gm_call (nth i load_order gm_Tokenizer) = Ok tt)
                             by (intros; apply H; lia);
                           clear H
                       | 0 => clear H
                       end
                   end;
            repeat match goal with
                   | H : gm_call _ = Ok tt |- _ => rewrite H; clear H
                   end;
            rewrite Hat; reflexivity
          | ]).
    cbn in Hk; lia.
Qed.

(** X27.  [reset_conversation] of [web_interface.py] resets the text
    sampler for type "text" and the vision sampler for every other type, also
    an unknown one, leaving the other sampler as it is; when the sampler to
    reset is still [None] the route raises an AttributeError. *)
Theorem interface_reset_defaults_to_vision (conversation_type : string)
    (c v : option (list Message)) (h : list Message) (q : list Entry)
    (th : list Job) (w : World) :
  conversation_type <> "text" ->
  reset_conversation conversation_type (mk_app c (Some h) q th w)
  = (Ok tt, mk_app c (Some []) q th w) /\
  reset_conversation conversation_type (mk_app c None q th w)
  = (Raise (none_has_no_attribute "reset"), mk_app c None q th w) /\
  reset_conversation "text" (mk_app (Some h) v q th w)
  = (Ok tt, mk_app (Some []) v q th w) /\
  reset_conversation "text" (mk_app None v q th w)
  = (Raise (none_has_no_attribute "reset"), mk_app None v q th w).
Proof.
  intro Hne; apply String.eqb_neq in Hne.
  unfold reset_conversation; py_run; rewrite Hne.
  repeat split.
Qed.

(** X28.  An image job whose payload does not decode to an image is
    answered in the error field with the message of the decoder or of the
    image parser; the model is not called and nothing else changes. *)
Theorem interface_decode_failure_is_published (prompt image_data cid : string)
    (g : App) (payload : string) (x : exn) :
  nth_error (split "," image_data) 1 = Some payload ->
  decode_image payload = Raise x ->
  process_image_query prompt image_data cid g
  = (Ok tt,
     set_response_queue (response_queue g ++ [mk_entry cid None (Some (str x))]) g).
Proof.
  intros Hpayload Hfail.
  rewrite interface_image_worker; unfold image_handler, index.
  rewrite Hpayload; py_run.
  unfold decode_image in Hfail.
  destruct (b64decode payload) as [bytes|y].
  - rewrite Hfail; reflexivity.
  - injection Hfail as ->; reflexivity.
Qed.

End Interface.

Lemma interface_reset_defaults_to_vision_witness :
  let h := [user_message "Hello" []; assistant_message "Hi."] in
  WebInterface.reset_conversation "video"
    (WebInterface.mk_app (Some h) (Some h) [] [] empty_world)
  = (Ok tt, WebInterface.mk_app (Some h) (Some []) [] [] empty_world) /\
  WebInterface.reset_conversation "video"
    (WebInterface.mk_app (Some h) None [] [] empty_world)
  = (Raise (none_has_no_attribute "reset"),
     WebInterface.mk_app (Some h) None [] [] empty_world) /\
  WebInterface.reset_conversation "text"
    (WebInterface.mk_app (Some h) None [] [] empty_world)
  = (Ok tt, WebInterface.mk_app (Some []) None [] [] empty_world) /\
  WebInterface.reset_conversation "text"
    (WebInterface.mk_app None None [] [] empty_world)
  = (Raise (none_has_no_attribute "reset"),
     WebInterface.mk_app None None [] [] empty_world).
Proof.
  intro h.
  apply (interface_reset_defaults_to_vision "video" (Some h) None h [] [] empty_world).
  discriminate.
Defined.

(** A data URI whose payload is not an image. *)
Lemma interface_decode_failure_is_published_witness :
  let E := stub_io (Some "A cat.") ".png" (Ok EmptyString)
             (Raise (mk_exn Exception "cannot identify image file")) in
  let g := WebInterface.mk_app (Some []) (Some []) [] [] empty_world in
  @WebInterface.process_image_query E "What is in this picture?"
    "data:image/png;base64,aGVsbG8=" "conversation-1" g
  = (Ok tt,
     WebInterface.set_response_queue
       (WebInterface.response_queue g ++
        [mk_entry "conversation-1" None
           (Some (str (mk_exn Exception "cannot identify image file")))]) g).
Proof.
  intros E g.
  apply (@interface_decode_failure_is_published E "What is in this picture?"
           "data:image/png;base64,aGVsbG8=" "conversation-1" g "aGVsbG8="
           (mk_exn Exception "cannot identify image file")); reflexivity.
Defined.

(** All the calls of the library succeed; then the construction of the
    vision sampler, the last call, fails. *)
Lemma interface_jobs_need_loaded_models_witness :
  let E := stub (Some "Hi.") EmptyString in
  let loads := startup_stub (fun _ => Ok tt) (fun _ => Ok tt) in
  let fails := startup_stub (fun _ => Ok tt)
                 (fun step => match step with
                              | gm_ChatSampler true =>
                                  Raise (mk_exn Exception "out of memory")
                              | _ => Ok tt
                              end) in
  (exists w1,
     @WebInterface.load_models loads (WebInterface.mk_app None None [] [] empty_world)
     = (Ok tt, WebInterface.mk_app (Some []) (Some []) [] [] w1) /\
     invocations w1 = invocations empty_world /\
     exists g2,
       @WebInterface.process_text_query E "Hello" "conversation-1"
         (WebInterface.mk_app (Some []) (Some []) [] [] w1) = (Ok tt, g2) /\
       invocations (WebInterface.world g2)
       = invocations empty_world ++ [[user_message "Hello" []]]) /\
  @WebInterface.load_models fails (WebInterface.mk_app None None [] [] empty_world)
  = (Raise (mk_exn Exception "out of memory"),
     WebInterface.mk_app (Some []) None [] []
       (print_line "Loading Gemma 3 models..." empty_world)).
Proof.
  intros E loads fails; split.
  - apply (proj1 (proj2 (@interface_jobs_need_loaded_models E loads
                           "Hello" "conversation-1" None None [] [] empty_world))).
    intros step _; reflexivity.
  - apply (proj2 (proj2 (@interface_jobs_need_loaded_models E fails
                           "Hello" "conversation-1" None None [] [] empty_world))
                 6 (mk_exn Exception "out of memory")).
    + cbn; lia.
    + intros i Hi; do 6 (destruct i as [|i]; [reflexivity|]); lia.
    + reflexivity.
Defined.

(** The text client is built, the construction of the vision client fails:
    [False] is returned and the new text client stays. *)
Example initialize_clients_vision_failure :
  @GemmaWebApp.initialize_clients
    (startup_stub (fun name => if String.eqb name "gemma-3-vision-it"
                               then Raise (mk_exn Exception "model not found")
                               else Ok tt)
                  (fun _ => Ok tt))
    (GemmaWebApp.mk_app (Some "key") None None [] [] empty_world)
  = (Ok false,
     GemmaWebApp.mk_app (Some "key") (Some (GemmaWebApp.GemmaClient__init__ false))
       None [] []
       (mk_world [] ["Initializing Gemma clients...";
                     "Error initializing Gemma clients: model not found"])).
Proof. vm_compute; reflexivity. Qed.

(** White space outside ASCII is stripped as Python does. *)
Example strip_no_break_space :
  strip (String (ascii_of_nat 160) ("exit" +++ String (ascii_of_nat 133) EmptyString))
  = "exit"
  /\ is_exit ("exit" +++ String (ascii_of_nat 160) EmptyString) = true
  /\ is_chat_line ("exit" +++ String (ascii_of_nat 160) EmptyString) = false
  /\ truthy (strip (String (ascii_of_nat 160) EmptyString)) = false.
Proof. repeat split. Qed.
